(** * elsapy: a client for api.elsevier.com

    A shallow embedding of [elsapy.py] (the client class [elsClient] and the
    entity classes [elsEntity], [elsProfile], [elsAuthor], [elsAffil] and
    [elsDoc]) together with the properties its specification states.

    Layout:
    - [Py]: the fragment of Python the module relies on (JSON-decoded values,
      exceptions, subscripting, [isinstance], iteration, [+], [str]);
    - the state-and-exception monad [M] in which the methods run;
    - one module per class, with the methods under their source names;
    - [Throttle]: the head of [execRequest], which spaces the requests, run
      against a clock;
    - the theorems. *)

From stdpp Require Import gmap strings list pretty.
From Stdlib Require Import Floats.PrimFloat Floats.FloatOps Floats.SpecFloat.
From Stdlib Require Import QArith Lqa.

#[local] Close Scope Q_scope.

#[local] Set Warnings "-register-all".

(** ** Python values and the built-in operations the module uses *)

Module Py.

(** What [json.loads] produces: [None], [bool], [int], [float], [str],
    [list] and [dict] with [str] keys.  A [dict] is kept as its bindings in
    insertion order (which is the order Python iterates it in); subscripting
    finds the binding of a key. *)
Inductive json : Type :=
| JNull
| JBool (b : bool)
| JInt (z : Z)
| JFloat (f : float)
| JStr (s : string)
| JList (l : list json)
| JDict (d : list (string * json)).

(** The two kinds of subscript the module writes: [v["key"]] and [v[0]]. *)
Inductive index : Type :=
| Key (k : string)
| Idx (z : Z).

(** Exceptions, by class.  [RequestException cls] stands for
    [requests.RequestException] and every subclass of it ([HTTPError],
    [ConnectionError], [Timeout], ...), [cls] naming the class;
    [OtherException] for any class outside that hierarchy that is not
    listed here. *)
Inductive exn : Type :=
| TypeError
| KeyError (i : index)
| IndexError
| AttributeError (attr : string)
| ZeroDivisionError
| ValueError
| RequestException (cls : string)
| OtherException (cls : string).

(** How a Python expression or call ends. *)
Inductive outcome (A : Type) : Type :=
| Return (a : A)
| Raise (e : exn).
Arguments Return {A} a.
Arguments Raise {A} e.

(** The operand of a [raise] statement: an exception class, an instance of
    one, or, as in [execRequest], a tuple. *)
Inductive raise_operand : Type :=
| ExcClass (e : exn)
| ExcInstance (e : exn)
| ExcTuple (l : list raise_operand).

(** Python 3's [raise]: a class is instantiated, an instance is raised as
    it is, and anything else is a
    [TypeError: exceptions must derive from BaseException]. *)
Definition raised (o : raise_operand) : exn :=
  match o with
  | ExcClass e | ExcInstance e => e
  | ExcTuple _ => TypeError
  end.

(** [except (requests.HTTPError, requests.RequestException)]: the clause
    matches instances of [RequestException] and of its subclasses. *)
Definition is_RequestException (e : exn) : bool :=
  match e with
  | RequestException _ => true
  | _ => false
  end.

(** [isinstance(v, list)] *)
Definition isinstance_list (v : json) : bool :=
  match v with
  | JList _ => true
  | _ => false
  end.

(** [d[k]] on the bindings of a [dict]. *)
Fixpoint dict_get (k : string) (d : list (string * json)) : option json :=
  match d with
  | [] => None
  | (k', v) :: d' => if String.eqb k k' then Some v else dict_get k d'
  end.

(** [l[z]] on a sequence, negative positions counting from the end. *)
Definition seq_get {A : Type} (l : list A) (z : Z) : option A :=
  let n := Z.of_nat (length l) in
  if bool_decide (0 ≤ z < n)%Z then l !! Z.to_nat z
  else if bool_decide (- n ≤ z < 0)%Z then l !! Z.to_nat (n + z)
  else None.

(** The characters of a [str], each as a one-character [str]. *)
Fixpoint chars (s : string) : list json :=
  match s with
  | EmptyString => []
  | String a s' => JStr (String a EmptyString) :: chars s'
  end.

(** [v[i]] *)
Definition getitem (v : json) (i : index) : outcome json :=
  match v, i with
  | JDict d, Key k =>
      match dict_get k d with
      | Some x => Return x
      | None => Raise (KeyError i)
      end
  | JDict _, Idx _ => Raise (KeyError i)
  | JList l, Idx z =>
      match seq_get l z with
      | Some x => Return x
      | None => Raise IndexError
      end
  | JStr s, Idx z =>
      match seq_get (chars s) z with
      | Some x => Return x
      | None => Raise IndexError
      end
  | _, _ => Raise TypeError
  end.

(** [[x for x in v]]: a [list] yields its items, a [dict] its keys, a [str]
    its characters; the other JSON values are not iterable. *)
Definition list_of (v : json) : outcome (list json) :=
  match v with
  | JList l => Return l
  | JDict d => Return (map (λ kv, JStr (fst kv)) d)
  | JStr s => Return (chars s)
  | _ => Raise TypeError
  end.

(** [a + b] where one operand is known to be a [str]: two [str]s are
    concatenated, any other JSON value on the other side is a
    [TypeError]. *)
Definition str_add (a b : json) : outcome json :=
  match a, b with
  | JStr x, JStr y => Return (JStr (x +:+ y))
  | _, _ => Raise TypeError
  end.

(** [a + l] where [l] is a fresh [list]: only a [list] can stand on the
    left. *)
Definition list_add (a : json) (l : list json) : outcome json :=
  match a with
  | JList x => Return (JList (x ++ l))
  | _ => Raise TypeError
  end.

(** [str(z)] of an [int]: its decimal digits. *)
Definition str_of_int (z : Z) : string := pretty z.

(** [if s:] on a [str]. *)
Definition truthy (s : string) : bool :=
  match s with
  | EmptyString => false
  | String _ _ => true
  end.

(** [a // b] on [int]s: floor division (which [Z.div] is). *)
Definition floordiv (a b : Z) : outcome Z :=
  if Z.eqb b 0 then Raise ZeroDivisionError else Return (a `div` b)%Z.

(** [range(0, n)] *)
Definition range0 (n : Z) : list Z := seqZ 0 n.

(** An object's instance attributes.  None of the attribute names the
    module reads ([uri], [data], [ID], [docList], [firstName], [lastName],
    [fullName], [name], [title]) is a class attribute, so [o.name] is the
    instance binding or an [AttributeError]. *)
Definition getattr (o : gmap string json) (name : string) : outcome json :=
  match o !! name with
  | Some v => Return v
  | None => Raise (AttributeError name)
  end.

End Py.
Import Py.

(** ** The world outside the module, and the monad the methods run in *)

(** What [requests.get] is called with, and what it returns. *)
Record request : Type := Request {
  url : json;
  headers : gmap string string;
}.

Record response : Type := Response {
  status_code : Z;
  text : string;
}.

(** The library code the module calls.  [requests_get] sees the calls made
    before this one (oldest first), so a server may answer the same request
    differently over time; it returns a response or raises (a connection
    error, say).  [json_loads] is [json.loads] and [builtin_int] is [int]
    applied to a JSON-decoded value. *)
Record runtime : Type := Runtime {
  requests_get : list request → request → outcome response;
  json_loads : string → outcome json;
  builtin_int : json → outcome Z;
}.

(** The mutable state a method call can touch: the attributes of [self] and
    the calls to [requests.get] made so far (oldest first). *)
Record state : Type := State {
  self : gmap string json;
  wire : list request;
}.

(** A statement either returns or raises; in both cases the assignments made
    before stay. *)
Definition M (A : Type) : Type := state → outcome A * state.

#[export] Instance M_ret : MRet M := λ A a s, (Return a, s).

#[export] Instance M_bind : MBind M := λ A B k m s,
  match m s with
  | (Return a, s') => k a s'
  | (Raise e, s') => (Raise e, s')
  end.

Definition raise {A : Type} (e : exn) : M A := λ s, (Raise e, s).

(** An expression that touches no state. *)
Definition eval {A : Type} (o : outcome A) : M A := λ s, (o, s).

(** [self.name] *)
Definition self_get (name : string) : M json := λ s,
  (getattr (self s) name, s).

(** [self.name = v] *)
Definition self_set (name : string) (v : json) : M unit := λ s,
  (Return tt, {| self := <[name := v]> (self s); wire := wire s |}).

(** [try: body / except (requests.HTTPError, requests.RequestException):
    handler] *)
Definition try_except {A : Type} (body handler : M A) : M A := λ s,
  match body s with
  | (Raise e, s') =>
      if is_RequestException e then handler s' else (Raise e, s')
  | r => r
  end.

(** [for i in l: body i] *)
Fixpoint for_each {A : Type} (l : list A) (body : A → M unit) : M unit :=
  match l with
  | [] => mret tt
  | i :: l' => body i ;; for_each l' body
  end.

(** ** class elsClient *)

Module elsClient.

Definition base_url : string := "https://api.elsevier.com/".
Definition userAgent : string := "elsapy.py".
Definition minReqInterval : Z := 1.

(** The instance attributes [__apiKey] and [__instToken], and [numRes],
    which instances read from the class (25) unless it is overridden. *)
Record t : Type := Client {
  apiKey : string;
  instToken : string;
  numRes : Z;
}.

Definition init (apiKey : string) (instToken : string) : t :=
  {| apiKey := apiKey; instToken := instToken; numRes := 25 |}.

(** [elsClient(apiKey)], the token defaulting to [''] *)
Definition init_default (apiKey : string) : t := init apiKey "".

Definition setInstToken (c : t) (instToken : string) : t :=
  {| apiKey := apiKey c; instToken := instToken; numRes := numRes c |}.

Definition getBaseURL (c : t) : string := base_url.

Definition showApiKey (c : t) : string := apiKey c.

(** The headers [execRequest] builds. *)
Definition request_headers (c : t) : gmap string string :=
  let headers : gmap string string :=
    <["Accept" := "application/json"]>
      (<["User-Agent" := userAgent]>
         (<["X-ELS-APIKey" := apiKey c]> ∅)) in
  if truthy (instToken c)
  then <["X-ELS-Insttoken" := instToken c]> headers
  else headers.

Section WithRuntime.
Context (rt : runtime).

(** [requests.get(URL, headers = headers)] *)
Definition get (URL : json) (headers : gmap string string) : M response :=
  λ s,
    let req := {| url := URL; headers := headers |} in
    (requests_get rt (wire s) req,
     {| self := self s; wire := wire s ++ [req] |}).

(** [execRequest], from the construction of the request on.  The throttle
    at the head of the method (read the clock, sleep, store the time in
    [__tsLastReq]) acts on wall-clock time and on a timestamp that nothing
    else reads; it is embedded in [Throttle], whose [execRequest] runs it
    before this body.  The [print] after the [raise] is never reached. *)
Definition execRequest (c : t) (URL : json) : M json :=
  r ← get URL (request_headers c);
  if Z.eqb (status_code r) 200
  then eval (json_loads rt (text r))
  else raise (raised (ExcTuple
                        [ExcClass (RequestException "HTTPError");
                         ExcClass (RequestException "RequestException")])).

End WithRuntime.

End elsClient.

(** ** class elsEntity *)

Module elsEntity.

(** [__init__]: [self.uri = URI] *)
Definition init (URI : json) (o : gmap string json) : gmap string json :=
  <["uri" := URI]> o.

(** [getURI] *)
Definition getURI : M json := self_get "uri".

Section WithRuntime.
Context (rt : runtime).

(** [read] *)
Definition read (c : elsClient.t) (payloadType : string) : M bool :=
  try_except
    (uri ← self_get "uri";
     apiResponse ← elsClient.execRequest rt c uri;
     payload ← eval (getitem apiResponse (Key payloadType));
     (if isinstance_list payload
      then payload ← eval (getitem apiResponse (Key payloadType));
           first ← eval (getitem payload (Idx 0));
           self_set "data" first
      else payload ← eval (getitem apiResponse (Key payloadType));
           self_set "data" payload);;
     data ← self_get "data";
     coredata ← eval (getitem data (Key "coredata"));
     identifier ← eval (getitem coredata (Key "dc:identifier"));
     self_set "ID" identifier;;
     mret true)
    (mret false).

End WithRuntime.

End elsEntity.

(** ** class elsProfile(elsEntity) *)

Module elsProfile.

Definition init := elsEntity.init.
Definition getURI := elsEntity.getURI.

Section WithRuntime.
Context (rt : runtime).

(** [read] is inherited. *)
Definition read := elsEntity.read rt.

(** The body of the [for] loop of [readDocs], for page index [i]. *)
Definition readDocs_page (c : elsClient.t) (payloadType : string) (i : Z)
  : M unit :=
  uri ← self_get "uri";
  prefix ← eval (str_add uri (JStr "?view=documents&start="));
  URL ← eval (str_add prefix
                (JStr (str_of_int ((i + 1) * elsClient.numRes c + 1))));
  apiResponse ← elsClient.execRequest rt c URL;
  payload ← eval (getitem apiResponse (Key payloadType));
  data ← (if isinstance_list payload
          then payload ← eval (getitem apiResponse (Key payloadType));
               eval (getitem payload (Idx 0))
          else eval (getitem apiResponse (Key payloadType)));
  docList ← self_get "docList";
  documents ← eval (getitem data (Key "documents"));
  abstracts ← eval (getitem documents (Key "abstract-document"));
  page ← eval (list_of abstracts);
  docList' ← eval (list_add docList page);
  self_set "docList" docList'.

(** [readDocs] *)
Definition readDocs (c : elsClient.t) (payloadType : string) : M bool :=
  try_except
    (uri ← self_get "uri";
     URL ← eval (str_add uri (JStr "?view=documents"));
     apiResponse ← elsClient.execRequest rt c URL;
     payload ← eval (getitem apiResponse (Key payloadType));
     data ← (if isinstance_list payload
             then payload ← eval (getitem apiResponse (Key payloadType));
                  eval (getitem payload (Idx 0))
             else eval (getitem apiResponse (Key payloadType)));
     documents ← eval (getitem data (Key "documents"));
     total ← eval (getitem documents (Key "@total"));
     docCount ← eval (builtin_int rt total);
     documents ← eval (getitem data (Key "documents"));
     abstracts ← eval (getitem documents (Key "abstract-document"));
     page ← eval (list_of abstracts);
     self_set "docList" (JList page);;
     pages ← eval (floordiv docCount (elsClient.numRes c));
     for_each (range0 pages) (readDocs_page c payloadType);;
     mret true)
    (mret false).

End WithRuntime.

End elsProfile.

(** ** class elsAuthor(elsProfile) *)

Module elsAuthor.

Definition payloadType : string := "author-retrieval-response".

(** [__init__] *)
Definition init (URI : json) (o : gmap string json) : gmap string json :=
  <["lastName" := JStr ""]> (<["firstName" := JStr ""]> (elsEntity.init URI o)).

(** [elsAuthor(URI)] *)
Definition new (URI : json) : gmap string json := init URI ∅.

Definition getURI := elsEntity.getURI.

Section WithRuntime.
Context (rt : runtime).

(** [read] *)
Definition read (c : elsClient.t) : M bool :=
  ok ← elsProfile.read rt c payloadType;
  if ok : bool
  then data ← self_get "data";
       profile ← eval (getitem data (Key "author-profile"));
       preferred ← eval (getitem profile (Key "preferred-name"));
       given ← eval (getitem preferred (Key "given-name"));
       self_set "firstName" given;;
       data ← self_get "data";
       profile ← eval (getitem data (Key "author-profile"));
       preferred ← eval (getitem profile (Key "preferred-name"));
       surname ← eval (getitem preferred (Key "surname"));
       self_set "lastName" surname;;
       firstName ← self_get "firstName";
       spaced ← eval (str_add firstName (JStr " "));
       lastName ← self_get "lastName";
       fullName ← eval (str_add spaced lastName);
       self_set "fullName" fullName;;
       mret true
  else mret false.

(** [readDocs] *)
Definition readDocs (c : elsClient.t) : M bool :=
  elsProfile.readDocs rt c payloadType.

End WithRuntime.

End elsAuthor.

(** ** class elsAffil(elsProfile) *)

Module elsAffil.

Definition payloadType : string := "affiliation-retrieval-response".

(** [__init__] *)
Definition init (URI : json) (o : gmap string json) : gmap string json :=
  elsEntity.init URI o.

(** [elsAffil(URI)] *)
Definition new (URI : json) : gmap string json := init URI ∅.

Definition getURI := elsEntity.getURI.

Section WithRuntime.
Context (rt : runtime).

(** [read] *)
Definition read (c : elsClient.t) : M bool :=
  ok ← elsProfile.read rt c payloadType;
  if ok : bool
  then data ← self_get "data";
       name ← eval (getitem data (Key "affiliation-name"));
       self_set "name" name;;
       mret true
  else mret false.

(** [readDocs] *)
Definition readDocs (c : elsClient.t) : M bool :=
  elsProfile.readDocs rt c payloadType.

End WithRuntime.

End elsAffil.

(** ** class elsDoc(elsEntity) *)

Module elsDoc.

Definition payloadType : string := "abstracts-retrieval-response".

(** [__init__] *)
Definition init (URI : json) (o : gmap string json) : gmap string json :=
  elsEntity.init URI o.

(** [elsDoc(URI)] *)
Definition new (URI : json) : gmap string json := init URI ∅.

Definition getURI := elsEntity.getURI.

Section WithRuntime.
Context (rt : runtime).

(** [read] *)
Definition read (c : elsClient.t) : M bool :=
  ok ← elsEntity.read rt c payloadType;
  if ok : bool
  then data ← self_get "data";
       coredata ← eval (getitem data (Key "coredata"));
       title ← eval (getitem coredata (Key "dc:title"));
       self_set "title" title;;
       mret true
  else mret false.

End WithRuntime.

End elsDoc.

(** ** Mock worlds for the examples *)

Module Mock.

(** [int] on the values the examples use: an [int], a [bool], or a [str]
    of decimal digits. *)
Fixpoint digits (s : string) (acc : Z) : option Z :=
  match s with
  | EmptyString => Some acc
  | String a s' =>
      let d := (Z.of_N (Ascii.N_of_ascii a) - 48)%Z in
      if bool_decide (0 ≤ d ≤ 9)%Z then digits s' (10 * acc + d)%Z else None
  end.

Definition int (v : json) : outcome Z :=
  match v with
  | JInt z => Return z
  | JBool b => Return (if b then 1 else 0)%Z
  | JStr EmptyString => Raise ValueError
  | JStr s =>
      match digits s 0 with
      | Some z => Return z
      | None => Raise ValueError
      end
  | _ => Raise TypeError
  end.

(** A decoder given by a table from body text to decoded value. *)
Fixpoint loads (table : list (string * json)) (body : string) : outcome json :=
  match table with
  | [] => Raise ValueError
  | (b, v) :: table' =>
      if String.eqb body b then Return v else loads table' body
  end.

(** A server that answers the n-th call with the n-th canned answer, and
    fails to connect once they are used up. *)
Definition server (answers : list (outcome response))
    (before : list request) (req : request) : outcome response :=
  match answers !! length before with
  | Some a => a
  | None => Raise (RequestException "ConnectionError")
  end.

Definition world (answers : list (outcome response))
    (table : list (string * json)) : runtime :=
  {| requests_get := server answers;
     json_loads := loads table;
     builtin_int := int |}.

End Mock.

(** ** Vocabulary of the specification *)

(** The request [execRequest] makes for [URL]. *)
Definition request_for (c : elsClient.t) (URL : json) : request :=
  {| url := URL; headers := elsClient.request_headers c |}.

(** The state once [req] has gone out. *)
Definition sent (s : state) (req : request) : state :=
  {| self := self s; wire := wire s ++ [req] |}.

(** The state once [self.name = v] has run. *)
Definition assigned (s : state) (name : string) (v : json) : state :=
  {| self := <[name := v]> (self s); wire := wire s |}.

(** The payload under the top-level key, when it may come as the record or
    as a list holding the record. *)
Definition normalized (payload : json) : outcome json :=
  if isinstance_list payload then getitem payload (Idx 0) else Return payload.

(** The URLs of the documents view: the first page, and the page of index
    [i] for page size [P]. *)
Definition first_url (u : string) : json := JStr (u +:+ "?view=documents").

Definition page_url (u : string) (P : Z) (i : Z) : json :=
  JStr ((u +:+ "?view=documents&start=") +:+ str_of_int ((i + 1) * P + 1)).

(** The state after the loop of [readDocs] has fetched the pages of the
    indices [idxs]. *)
Definition fetched (c : elsClient.t) (u : string) (s : state)
    (idxs : list Z) (docList : list json) : state :=
  let req i := request_for c (page_url u (elsClient.numRes c) i) in
  {| self := <["docList" := JList docList]> (self s);
     wire := wire s ++ map req idxs |}.

(** [req], made after the calls [before], succeeds at the HTTP level and
    brings a page of the documents view: status 200, a body that decodes to
    a mapping with the payload under [key], [documents] as its documents
    section and [docs] as the items of that section's document list. *)
Inductive serves (rt : runtime) (key : string) (before : list request)
    (req : request) (documents : json) (docs : list json) : Prop :=
| Serves body decoded payload data abstracts :
    requests_get rt before req = Return (Response 200 body) →
    json_loads rt body = Return decoded →
    getitem decoded (Key key) = Return payload →
    normalized payload = Return data →
    getitem data (Key "documents") = Return documents →
    getitem documents (Key "abstract-document") = Return abstracts →
    list_of abstracts = Return docs →
    serves rt key before req documents docs.

(** The requests for [urls], made one after the other after the calls
    [before], all succeed, and bring the document lists [pages]. *)
Fixpoint pages_served (rt : runtime) (key : string) (c : elsClient.t)
    (before : list request) (urls : list json) (pages : list (list json))
  : Prop :=
  match urls, pages with
  | [], [] => True
  | URL :: urls', docs :: pages' =>
      (∃ documents, serves rt key before (request_for c URL) documents docs)
      ∧ pages_served rt key c (before ++ [request_for c URL]) urls' pages'
  | _, _ => False
  end.

(** The decoded body of a response lacks the key [k] that [read], called
    with the payload key [key], expects: the payload key itself,
    ["coredata"] in the record, or ["dc:identifier"] in its core data. *)
Inductive lacks (key : string) (decoded : json) : string → Prop :=
| lacks_payload d :
    decoded = JDict d →
    dict_get key d = None →
    lacks key decoded key
| lacks_coredata payload d :
    getitem decoded (Key key) = Return payload →
    normalized payload = Return (JDict d) →
    dict_get "coredata" d = None →
    lacks key decoded "coredata"
| lacks_identifier payload data d :
    getitem decoded (Key key) = Return payload →
    normalized payload = Return data →
    getitem data (Key "coredata") = Return (JDict d) →
    dict_get "dc:identifier" d = None →
    lacks key decoded "dc:identifier".

(** ** The scenarios of the specification *)

Module Scenario.

Definition client : elsClient.t := elsClient.init "APIKEY" "".

Definition author_uri : string :=
  "https://api.elsevier.com/content/author/author-id/123".

(** The author response of the specification's example, and the same
    record without the list around it. *)
Definition jane_record : list (string * json) :=
  [("coredata", JDict [("dc:identifier", JStr "AUTHOR_ID:123")]);
   ("author-profile",
    JDict [("preferred-name",
            JDict [("given-name", JStr "Jane"); ("surname", JStr "Doe")])])].

Definition jane_doe : json :=
  JDict [("author-retrieval-response", JList [JDict jane_record])].

Definition jane_doe_unwrapped : json :=
  JDict [("author-retrieval-response", JDict jane_record)].

(** An author response whose core data has no identifier. *)
Definition anonymous : json :=
  JDict [("author-retrieval-response",
          JList [JDict [("coredata", JDict [("prism:url", JStr "")])]])].

(** A freshly constructed author, and one that a read has populated. *)
Definition fresh_author : state :=
  {| self := elsAuthor.new (JStr author_uri); wire := [] |}.

Definition jane_world : runtime :=
  Mock.world [Return (Response 200 "jane")] [("jane", jane_doe)].

Definition jane_unwrapped_world : runtime :=
  Mock.world [Return (Response 200 "jane")] [("jane", jane_doe_unwrapped)].

Definition anonymous_world : runtime :=
  Mock.world [Return (Response 200 "anonymous")] [("anonymous", anonymous)].

(** A server whose 200 response has the JSON array [[]] as its body. *)
Definition array_world : runtime :=
  Mock.world [Return (Response 200 "[]")] [("[]", JList [])].

Definition populated_author : state :=
  {| self := self (elsAuthor.read jane_world client fresh_author).2;
     wire := [] |}.

(** A server that answers every call with the same status and body. *)
Definition answering (code : Z) (body : string) : runtime :=
  {| requests_get := λ _ _, Return (Response code body);
     json_loads := Mock.loads [];
     builtin_int := Mock.int |}.

(** A page of the documents view of an author. *)
Definition page (total : string) (docs : list json) : json :=
  JDict [("author-retrieval-response",
          JList [JDict [("documents",
                         JDict [("@total", JStr total);
                                ("abstract-document", JList docs)])]])].

Definition doc (title : string) : json :=
  JDict [("dc:title", JStr title)].

(** Thirty documents, served twenty-five to a page (two stand for each
    page here). *)
Definition thirty_docs : runtime :=
  Mock.world [Return (Response 200 "page 1"); Return (Response 200 "page 2")]
    [("page 1", page "30" [doc "a"; doc "b"]);
     ("page 2", page "30" [doc "c"])].

(** The same, with the server failing on the second page. *)
Definition second_page_fails : runtime :=
  Mock.world [Return (Response 200 "page 1");
              Return (Response 500 "Internal Server Error")]
    [("page 1", page "30" [doc "a"; doc "b"])].

End Scenario.

(** ** Vocabulary of the further properties *)

(** [m] changes no attribute of [self] outside [names]. *)
Definition preserves {A : Type} (names : list string) (m : M A) : Prop :=
  ∀ s name, name ∉ names → self (m s).2 !! name = self s !! name.

(** The attributes each [read] may assign. *)
Definition entity_attrs : list string := ["data"; "ID"].
Definition author_attrs : list string :=
  ["data"; "ID"; "firstName"; "lastName"; "fullName"].
Definition affil_attrs : list string := ["data"; "ID"; "name"].
Definition doc_attrs : list string := ["data"; "ID"; "title"].

(** What a method whose body is wrapped in
    [try: ... except (requests.HTTPError, requests.RequestException):
    return False] ends with when the body raises [e]. *)
Definition handled (e : exn) : outcome bool :=
  if is_RequestException e then Return false else Raise e.

(** [m] calls [requests.get] not at all. *)
Definition sends_nothing {A : Type} (m : M A) : Prop :=
  ∀ s, wire (m s).2 = wire s.

(** The request [read] makes for [uri] is answered with status 200 and a
    body that decodes to a value holding, under [key], the payload [data]
    (as it is or as the first item of a list), with [coredata] as its core
    data and [identifier] in it. *)
Inductive delivers (rt : runtime) (c : elsClient.t) (key : string)
    (s : state) (uri data coredata identifier : json) : Prop :=
| Delivers body decoded payload :
    requests_get rt (wire s) (request_for c uri) = Return (Response 200 body) →
    json_loads rt body = Return decoded →
    getitem decoded (Key key) = Return payload →
    normalized payload = Return data →
    getitem data (Key "coredata") = Return coredata →
    getitem coredata (Key "dc:identifier") = Return identifier →
    delivers rt c key s uri data coredata identifier.

(** The state in which the inherited [read] leaves an entity on success. *)
Definition populated (c : elsClient.t) (s : state) (uri data identifier : json)
  : state :=
  assigned (assigned (sent s (request_for c uri)) "data" data) "ID" identifier.

(** The first page of the documents view, [data], cannot be used: the
    documents section, the total in it, the total's value as an [int], the
    document list or its items cannot be had, [e] being the exception. *)
Inductive unusable (rt : runtime) (data : json) (e : exn) : Prop :=
| no_documents :
    getitem data (Key "documents") = Raise e →
    unusable rt data e
| no_total documents :
    getitem data (Key "documents") = Return documents →
    getitem documents (Key "@total") = Raise e →
    unusable rt data e
| no_count documents total :
    getitem data (Key "documents") = Return documents →
    getitem documents (Key "@total") = Return total →
    builtin_int rt total = Raise e →
    unusable rt data e
| no_list documents total T :
    getitem data (Key "documents") = Return documents →
    getitem documents (Key "@total") = Return total →
    builtin_int rt total = Return T →
    getitem documents (Key "abstract-document") = Raise e →
    unusable rt data e
| no_items documents total T abstracts :
    getitem data (Key "documents") = Return documents →
    getitem documents (Key "@total") = Return total →
    builtin_int rt total = Return T →
    getitem documents (Key "abstract-document") = Return abstracts →
    list_of abstracts = Raise e →
    unusable rt data e.

(** ** Further scenarios *)

Module Cases.

(** No connection: every call of [requests.get] raises. *)
Definition offline : runtime := Mock.world [] [].

(** A 200 response whose body is not JSON. *)
Definition not_json : runtime :=
  Mock.world [Return (Response 200 "<html>")] [].

(** An author response whose payload is an empty list. *)
Definition nobody : runtime :=
  Mock.world [Return (Response 200 "nobody")]
    [("nobody", JDict [("author-retrieval-response", JList [])])].

(** An author response with two records in the list. *)
Definition jane_and_john : runtime :=
  Mock.world [Return (Response 200 "two")]
    [("two", JDict [("author-retrieval-response",
                     JList [JDict Scenario.jane_record;
                            JDict [("coredata", JDict [])]])])].

Definition affil_uri : string :=
  "https://api.elsevier.com/content/affiliation/affiliation_id/60016849".

Definition fresh_affil : state :=
  {| self := elsAffil.new (JStr affil_uri); wire := [] |}.

(** An affiliation response, with and without the name. *)
Definition affil_record (named : bool) : json :=
  JDict (("coredata", JDict [("dc:identifier", JStr "AFFILIATION_ID:60016849")])
         :: if named then [("affiliation-name", JStr "University of Toronto")]
            else []).

Definition affiliation (named : bool) : runtime :=
  Mock.world [Return (Response 200 "affil")]
    [("affil", JDict [("affiliation-retrieval-response", affil_record named)])].

Definition doc_uri : string :=
  "https://api.elsevier.com/content/abstract/scopus_id/84872135457".

Definition fresh_doc : state :=
  {| self := elsDoc.new (JStr doc_uri); wire := [] |}.

(** A document response, with and without the title. *)
Definition doc_coredata (titled : bool) : json :=
  JDict (("dc:identifier", JStr "SCOPUS_ID:84872135457")
         :: if titled then [("dc:title", JStr "On the electrodynamics")]
            else []).

Definition document (titled : bool) : runtime :=
  Mock.world [Return (Response 200 "doc")]
    [("doc", JDict [("abstracts-retrieval-response",
                     JDict [("coredata", doc_coredata titled)])])].

(** Author responses with a preferred name of the given parts. *)
Definition author_named (parts : list (string * json)) : json :=
  JDict [("coredata", JDict [("dc:identifier", JStr "AUTHOR_ID:7")]);
         ("author-profile", JDict [("preferred-name", JDict parts)])].

Definition author_world (parts : list (string * json)) : runtime :=
  Mock.world [Return (Response 200 "author")]
    [("author", JDict [("author-retrieval-response",
                        JList [author_named parts])])].

(** A documents view of [total] documents whose further pages cannot be
    reached. *)
Definition connection_lost (total : string) : runtime :=
  Mock.world [Return (Response 200 "page 1")]
    [("page 1", Scenario.page total [Scenario.doc "a"; Scenario.doc "b"])].

(** A client whose page size has been set to [P]. *)
Definition client_with_pages (P : Z) : elsClient.t :=
  {| elsClient.apiKey := "APIKEY"; elsClient.instToken := "";
     elsClient.numRes := P |}.

(** Fifty documents, served twenty-five to a page, and a third, empty page
    for what lies beyond them. *)
Definition fifty_docs : runtime :=
  Mock.world [Return (Response 200 "page 1"); Return (Response 200 "page 2");
              Return (Response 200 "page 3")]
    [("page 1", Scenario.page "50" [Scenario.doc "a"]);
     ("page 2", Scenario.page "50" [Scenario.doc "b"]);
     ("page 3", Scenario.page "50" [])].

(** A documents view whose total is not a number. *)
Definition total_unknown : runtime :=
  Mock.world [Return (Response 200 "page 1")]
    [("page 1", Scenario.page "many" [Scenario.doc "a"])].

End Cases.

(** ** The throttle of [execRequest] *)

Module Throttle.

(** What the throttle computes with: the values [time.time()] returns.
    [of_int] is the conversion Python applies to the [int]
    [__minReqInterval] when it meets a [float], [minus] is [-] and [less]
    is [<]. *)
Class Seconds (T : Type) : Type := {
  of_int : Z → T;
  minus : T → T → T;
  less : T → T → bool;
}.

(** Python's [float]: binary64, with its rounding. *)
#[export] Instance float_Seconds : Seconds float := {|
  of_int z := SF2Prim (binary_normalize prec emax z 0 false);
  minus := PrimFloat.sub;
  less := PrimFloat.ltb;
|}.

(** Exact arithmetic on the rationals. *)
#[export] Instance Q_Seconds : Seconds Q := {|
  of_int := inject_Z;
  minus := Qminus;
  less a b := negb (Qle_bool b a);
|}.

(** What a call does that takes or tells time, in the order it happens: a
    call of [time.time()] with its result, a call of [time.sleep(d)], a
    call of [requests.get]. *)
Inductive event (T : Type) : Type :=
| Now (t : T)
| Sleep (d : T)
| Get (req : request).
Arguments Now {T} t.
Arguments Sleep {T} d.
Arguments Get {T} req.

(** The attribute [__tsLastReq] of the client (the class's value, taken when
    the module was loaded, until the first call assigns it), and the events
    so far, oldest first. *)
Record timing (T : Type) : Type := Timing {
  tsLastReq : T;
  trace : list (event T);
}.
Arguments Timing {T} tsLastReq trace.
Arguments tsLastReq {T} t.
Arguments trace {T} t.

Section WithClock.
Context {T : Type} `{Seconds T}.

(** The wall clock: what it shows once the given events have happened.
    This is what the next [time.time()] returns, and the instant at which
    the next event begins. *)
Context (clock : list (event T) → T).

(** [time.time()] *)
Definition time_time (tm : timing T) : T * timing T :=
  let t := clock (trace tm) in
  (t, {| tsLastReq := tsLastReq tm; trace := trace tm ++ [Now t] |}).

(** [time.sleep(d)] *)
Definition time_sleep (d : T) (tm : timing T) : timing T :=
  {| tsLastReq := tsLastReq tm; trace := trace tm ++ [Sleep d] |}.

(** The head of [execRequest]:
    [interval = time.time() - self.__tsLastReq];
    [if (interval < self.__minReqInterval):
       time.sleep(self.__minReqInterval - interval)];
    [self.__tsLastReq = time.time()].
    The argument of [time.sleep] is positive whenever it is called, so the
    call does not raise. *)
Definition throttle (tm : timing T) : timing T :=
  let '(now, tm) := time_time tm in
  let interval := minus now (tsLastReq tm) in
  let tm :=
    if less interval (of_int elsClient.minReqInterval)
    then time_sleep (minus (of_int elsClient.minReqInterval) interval) tm
    else tm in
  let '(now, tm) := time_time tm in
  {| tsLastReq := now; trace := trace tm |}.

(** [execRequest] as a whole: the throttle, then the request and what
    follows it ([elsClient.execRequest]), the call of [requests.get] being
    entered in the trace. *)
Definition execRequest (rt : runtime) (c : elsClient.t) (URL : json)
    (st : timing T * state) : outcome json * (timing T * state) :=
  let tm := throttle st.1 in
  let '(o, s) := elsClient.execRequest rt c URL st.2 in
  (o, ({| tsLastReq := tsLastReq tm;
          trace := trace tm ++ [Get (request_for c URL)] |}, s)).




End WithClock.



(** A clock that shows the given readings one after the other, one for
    each event. *)
Definition scripted (readings : list float) (tr : list (event float))
  : float :=
  default 0%float (readings !! length tr).

End Throttle.

(** ** Reasoning about [M] *)

Lemma bind_Return {A B} (m : M A) (k : A → M B) s a s' :
  m s = (Return a, s') → (m ≫= k) s = k a s'.
Proof. intros H. unfold mbind, M_bind. by rewrite H. Qed.

Lemma bind_Raise {A B} (m : M A) (k : A → M B) s e s' :
  m s = (Raise e, s') → (m ≫= k) s = (Raise e, s').
Proof. intros H. unfold mbind, M_bind. by rewrite H. Qed.

Lemma bind_inv {A B} (m : M A) (k : A → M B) s b s' :
  (m ≫= k) s = (Return b, s') →
  ∃ a s1, m s = (Return a, s1) ∧ k a s1 = (Return b, s').
Proof.
  unfold mbind, M_bind. destruct (m s) as [[a|e] s1]; [eauto | discriminate].
Qed.

Lemma eval_inv {A} (o : outcome A) s a s' :
  eval o s = (Return a, s') → o = Return a ∧ s' = s.
Proof. unfold eval. by intros [= -> ->]. Qed.

Lemma self_get_inv name s v s' :
  self_get name s = (Return v, s') → self s !! name = Some v ∧ s' = s.
Proof.
  unfold self_get, getattr. destruct (self s !! name); by intros [= <- <-].
Qed.

Lemma self_set_inv name v s u s' :
  self_set name v s = (Return u, s') → s' = assigned s name v.
Proof. unfold self_set. by intros [= <- <-]. Qed.

Lemma mret_inv {A} (a b : A) s s' :
  mret (M := M) a s = (Return b, s') → a = b ∧ s' = s.
Proof. unfold mret, M_ret. by intros [= -> ->]. Qed.

Lemma str_add_inv a b v :
  str_add a b = Return v → ∃ x y, a = JStr x ∧ b = JStr y ∧ v = JStr (x +:+ y).
Proof. destruct a, b; simpl; intros [= <-]; eauto. Qed.

(** What [execRequest] does, by what [requests.get] answers. *)
Lemma execRequest_ok rt c URL s body :
  requests_get rt (wire s) (request_for c URL) = Return (Response 200 body) →
  elsClient.execRequest rt c URL s
  = (json_loads rt body, sent s (request_for c URL)).
Proof.
  intros H. unfold elsClient.execRequest.
  erewrite bind_Return; [| unfold elsClient.get; fold (request_for c URL);
                            rewrite H; reflexivity].
  reflexivity.
Qed.

Lemma execRequest_status rt c URL s r :
  requests_get rt (wire s) (request_for c URL) = Return r →
  status_code r ≠ 200%Z →
  elsClient.execRequest rt c URL s
  = (Raise TypeError, sent s (request_for c URL)).
Proof.
  intros H Hne. unfold elsClient.execRequest.
  erewrite bind_Return; [| unfold elsClient.get; fold (request_for c URL);
                            rewrite H; reflexivity].
  by apply Z.eqb_neq in Hne as ->.
Qed.

Lemma execRequest_unreachable rt c URL s e :
  requests_get rt (wire s) (request_for c URL) = Raise e →
  elsClient.execRequest rt c URL s = (Raise e, sent s (request_for c URL)).
Proof.
  intros H. unfold elsClient.execRequest.
  erewrite bind_Raise; [reflexivity |].
  unfold elsClient.get. fold (request_for c URL). by rewrite H.
Qed.

Lemma execRequest_wire rt c URL s :
  (elsClient.execRequest rt c URL s).2 = sent s (request_for c URL).
Proof.
  destruct (requests_get rt (wire s) (request_for c URL)) as [r|e] eqn:H.
  - destruct (decide (status_code r = 200%Z)) as [E|E].
    + destruct r as [code body]; simpl in E; subst code.
      by rewrite (execRequest_ok _ _ _ _ _ H).
    + by rewrite (execRequest_status _ _ _ _ _ H E).
  - by rewrite (execRequest_unreachable _ _ _ _ _ H).
Qed.

(** ** [execRequest]: status 200 and the other statuses *)

(** C2, as the code has it.  When [requests.get] answers with status 200,
    [execRequest] returns what [json.loads] makes of the body (whatever JSON
    value that is, or the decoder's exception) and when it answers with any
    other status, [execRequest] returns nothing and raises; what it raises
    is the same for any two failed responses, whatever their status codes
    and bodies, so it carries neither. *)
Theorem execRequest_by_status rt rt' c URL s r r' :
  requests_get rt (wire s) (request_for c URL) = Return r →
  requests_get rt' (wire s) (request_for c URL) = Return r' →
  (status_code r = 200%Z →
   elsClient.execRequest rt c URL s
   = (json_loads rt (text r), sent s (request_for c URL)))
  ∧ (status_code r ≠ 200%Z → status_code r' ≠ 200%Z →
     ∃ e, elsClient.execRequest rt c URL s
          = (Raise e, sent s (request_for c URL))
        ∧ elsClient.execRequest rt' c URL s
          = (Raise e, sent s (request_for c URL))).
Proof.
  intros Hr Hr'. split.
  - intros E. destruct r as [code body]. simpl in E. subst code.
    by apply execRequest_ok.
  - intros E E'. exists TypeError. split; by eapply execRequest_status.
Qed.

Lemma execRequest_by_status_witness :
  let s := Scenario.fresh_author in
  let URL := JStr Scenario.author_uri in
  ∃ e, elsClient.execRequest (Scenario.answering 404 "Not Found")
         Scenario.client URL s
       = (Raise e, sent s (request_for Scenario.client URL))
     ∧ elsClient.execRequest (Scenario.answering 500 "Internal Server Error")
         Scenario.client URL s
       = (Raise e, sent s (request_for Scenario.client URL)).
Proof.
  intros s URL.
  apply (execRequest_by_status
           (Scenario.answering 404 "Not Found")
           (Scenario.answering 500 "Internal Server Error")
           Scenario.client URL s
           (Response 404 "Not Found") (Response 500 "Internal Server Error"));
    [reflexivity | reflexivity | simpl; lia | simpl; lia].
Defined.

(** C2, as the specification states it, fails: on a 404 and on a 500 with
    different bodies [execRequest] raises one and the same [TypeError],
    which is no [HTTPError] (the [except] clause of [read] does not match
    it) and tells neither status nor body; and on a 200 whose body is a JSON
    array it returns a list, not a mapping. *)
Lemma execRequest_error_is_no_HttpError :
  let s := Scenario.fresh_author in
  let URL := JStr Scenario.author_uri in
  let on404 := (elsClient.execRequest (Scenario.answering 404 "Not Found")
                  Scenario.client URL s).1 in
  let on500 := (elsClient.execRequest
                  (Scenario.answering 500 "Internal Server Error")
                  Scenario.client URL s).1 in
  let on200 := (elsClient.execRequest Scenario.array_world
                  Scenario.client URL s).1 in
  on404 = Raise TypeError
  ∧ is_RequestException TypeError = false
  ∧ on404 = on500
  ∧ on200 = Return (JList []).
Proof. vm_compute. auto. Qed.

(** ** [read] when the request fails *)

(** On any status but 200, [read] lets the [TypeError] of [execRequest]
    through; the attributes of the entity stay as they were. *)
Lemma read_status rt c key s uri r :
  self s !! "uri" = Some uri →
  requests_get rt (wire s) (request_for c uri) = Return r →
  status_code r ≠ 200%Z →
  elsEntity.read rt c key s = (Raise TypeError, sent s (request_for c uri)).
Proof.
  intros Huri Hr Hne. unfold elsEntity.read, try_except.
  erewrite bind_Return; [| unfold self_get, getattr; by rewrite Huri].
  erewrite bind_Raise; [| by eapply execRequest_status].
  reflexivity.
Qed.

(** When [requests.get] itself raises within the [RequestException]
    hierarchy, [read] does return [False]. *)
Lemma read_unreachable rt c key s uri cls :
  self s !! "uri" = Some uri →
  requests_get rt (wire s) (request_for c uri) = Raise (RequestException cls) →
  elsEntity.read rt c key s = (Return false, sent s (request_for c uri)).
Proof.
  intros Huri Hr. unfold elsEntity.read, try_except.
  erewrite bind_Return; [| unfold self_get, getattr; by rewrite Huri].
  erewrite bind_Raise; [| by eapply execRequest_unreachable].
  reflexivity.
Qed.

(** C1 on a failing input: a populated author, and a server that answers
    404.  Each [read] ends in a [TypeError] instead of returning [False];
    the attributes are those from before the call. *)
Theorem read_on_404_raises :
  let w := Scenario.answering 404 "Not Found" in
  let c := Scenario.client in
  let s := Scenario.populated_author in
  (elsEntity.read w c elsAuthor.payloadType s).1 = Raise TypeError
  ∧ (elsAuthor.read w c s).1 = Raise TypeError
  ∧ (elsAffil.read w c s).1 = Raise TypeError
  ∧ (elsDoc.read w c s).1 = Raise TypeError
  ∧ self (elsAuthor.read w c s).2 = self s
  ∧ self s !! "fullName" = Some (JStr "Jane Doe").
Proof. vm_compute. repeat split; reflexivity. Qed.

(** ** The institutional-token header *)

Lemma request_headers_token c :
  elsClient.request_headers c !! "X-ELS-Insttoken"
  = if truthy (elsClient.instToken c) then Some (elsClient.instToken c) else None.
Proof.
  unfold elsClient.request_headers. destruct (truthy _).
  - apply lookup_insert_eq.
  - by rewrite !lookup_insert_ne, lookup_empty.
Qed.

(** C9.  The one request an [execRequest] call sends carries the header
    [X-ELS-Insttoken] exactly when the client's token is not the empty
    string, and then with the token as its value; after
    [setInstToken('')] the header is left out. *)
Theorem instToken_header_iff_nonempty rt c URL s :
  ∃ req,
    wire (elsClient.execRequest rt c URL s).2 = wire s ++ [req]
    ∧ url req = URL
    ∧ (is_Some (headers req !! "X-ELS-Insttoken") ↔ elsClient.instToken c ≠ "")
    ∧ headers req !! "X-ELS-Insttoken"
      = match elsClient.instToken c with
        | EmptyString => None
        | String _ _ => Some (elsClient.instToken c)
        end
    ∧ ∃ req',
        wire (elsClient.execRequest rt (elsClient.setInstToken c "") URL s).2
        = wire s ++ [req']
        ∧ headers req' !! "X-ELS-Insttoken" = None.
Proof.
  exists (request_for c URL). rewrite execRequest_wire.
  split; [reflexivity |]. split; [reflexivity |].
  simpl. rewrite request_headers_token. split; [| split].
  - destruct (elsClient.instToken c); simpl.
    + split; [by intros [? [=]] | done].
    + split; [done | eauto].
  - by destruct (elsClient.instToken c).
  - exists (request_for (elsClient.setInstToken c "") URL).
    rewrite execRequest_wire. split; [reflexivity |].
    simpl. by rewrite request_headers_token.
Qed.

(** ** Freshly constructed entities *)

(** C10.  A new author has [firstName] and [lastName] equal to [""] and no
    [fullName]; a new affiliation has no [name] and a new document no
    [title]; reading one of the missing attributes is an
    [AttributeError]. *)
Theorem attributes_after_construction (URI : json) :
  elsAuthor.new URI !! "firstName" = Some (JStr "")
  ∧ elsAuthor.new URI !! "lastName" = Some (JStr "")
  ∧ elsAuthor.new URI !! "fullName" = None
  ∧ getattr (elsAuthor.new URI) "fullName" = Raise (AttributeError "fullName")
  ∧ elsAffil.new URI !! "name" = None
  ∧ getattr (elsAffil.new URI) "name" = Raise (AttributeError "name")
  ∧ elsDoc.new URI !! "title" = None
  ∧ getattr (elsDoc.new URI) "title" = Raise (AttributeError "title").
Proof.
  unfold getattr, elsAuthor.new, elsAffil.new, elsDoc.new,
    elsAuthor.init, elsAffil.init, elsDoc.init, elsEntity.init.
  repeat split; by simplify_map_eq.
Qed.

(** ** [read] on a response that arrives *)

Lemma self_get_run name s v :
  self s !! name = Some v → self_get name s = (Return v, s).
Proof. intros H. unfold self_get, getattr. by rewrite H. Qed.

Lemma self_get_assigned name s v :
  self_get name (assigned s name v) = (Return v, assigned s name v).
Proof. apply self_get_run. simpl. apply lookup_insert_eq. Qed.

Lemma self_set_run name v s :
  self_set name v s = (Return tt, assigned s name v).
Proof. reflexivity. Qed.

Lemma eval_run {A} (o : outcome A) s : eval o s = (o, s).
Proof. reflexivity. Qed.

Lemma bind_assoc {A B C} (m : M A) (f : A → M B) (g : B → M C) s :
  ((m ≫= f) ≫= g) s = (m ≫= (λ a, f a ≫= g)) s.
Proof. unfold mbind, M_bind. by destruct (m s) as [[a|e] s1]. Qed.

(** One statement of a method body, run forward. *)
Ltac step :=
  first
    [ erewrite bind_Return by
        first [ apply self_get_assigned
              | apply self_get_run; eassumption
              | apply self_set_run
              | rewrite eval_run; f_equal; eassumption
              | apply eval_run ]
    | erewrite bind_Raise by
        first [ rewrite eval_run; f_equal; eassumption ] ].

(** [read] up to the point where the payload is stored in [self.data]. *)
Lemma read_stores_data rt c key s uri body decoded payload :
  self s !! "uri" = Some uri →
  requests_get rt (wire s) (request_for c uri) = Return (Response 200 body) →
  json_loads rt body = Return decoded →
  getitem decoded (Key key) = Return payload →
  elsEntity.read rt c key s
  = try_except
      (data ← eval (normalized payload);
       self_set "data" data;;
       data ← self_get "data";
       coredata ← eval (getitem data (Key "coredata"));
       identifier ← eval (getitem coredata (Key "dc:identifier"));
       self_set "ID" identifier;;
       mret true)
      (mret false) (sent s (request_for c uri)).
Proof.
  intros Huri Hget Hloads Hpayload. unfold elsEntity.read, try_except.
  step. erewrite bind_Return by (erewrite execRequest_ok, Hloads; eauto).
  step. unfold normalized. destruct (isinstance_list payload).
  - rewrite bind_assoc. step. by rewrite bind_assoc.
  - rewrite bind_assoc. step. by step.
Qed.

(** A successful [read]: the normalised payload and its identifier are
    stored, and [True] is returned. *)
Lemma read_ok rt c key s uri body decoded payload data coredata identifier :
  self s !! "uri" = Some uri →
  requests_get rt (wire s) (request_for c uri) = Return (Response 200 body) →
  json_loads rt body = Return decoded →
  getitem decoded (Key key) = Return payload →
  normalized payload = Return data →
  getitem data (Key "coredata") = Return coredata →
  getitem coredata (Key "dc:identifier") = Return identifier →
  elsEntity.read rt c key s
  = (Return true,
     assigned (assigned (sent s (request_for c uri)) "data" data)
       "ID" identifier).
Proof.
  intros Huri Hget Hloads Hpayload Hdata Hcore Hid.
  erewrite read_stores_data by eassumption. unfold try_except.
  do 5 step. reflexivity.
Qed.

(** The concrete classes add statements after the inherited [read]; what
    the inherited [read] raises, they raise. *)
Lemma subclass_read_raises rt c key s e s' :
  elsEntity.read rt c key s = (Raise e, s') →
  (key = elsAuthor.payloadType → elsAuthor.read rt c s = (Raise e, s'))
  ∧ (key = elsAffil.payloadType → elsAffil.read rt c s = (Raise e, s'))
  ∧ (key = elsDoc.payloadType → elsDoc.read rt c s = (Raise e, s')).
Proof.
  intros H. repeat split; intros ->;
    unfold elsAuthor.read, elsAffil.read, elsDoc.read, elsProfile.read;
    by erewrite bind_Raise.
Qed.

(** ... and they depend on the world only through the inherited [read]. *)
Lemma subclass_read_ext rt1 rt2 c key s :
  elsEntity.read rt1 c key s = elsEntity.read rt2 c key s →
  (key = elsAuthor.payloadType → elsAuthor.read rt1 c s = elsAuthor.read rt2 c s)
  ∧ (key = elsAffil.payloadType → elsAffil.read rt1 c s = elsAffil.read rt2 c s)
  ∧ (key = elsDoc.payloadType → elsDoc.read rt1 c s = elsDoc.read rt2 c s).
Proof.
  intros H. repeat split; intros ->;
    unfold elsAuthor.read, elsAffil.read, elsDoc.read, elsProfile.read,
      mbind, M_bind; by rewrite H.
Qed.

Lemma getitem_singleton key v :
  getitem (JDict [(key, v)]) (Key key) = Return v.
Proof. simpl. by rewrite String.eqb_refl. Qed.

(** C5.  Whether the record [m] comes as [{key: m}] or as [{key: [m]}],
    [read] ends the same way and leaves the same state: the same return
    value, the same [data] and [ID], and, for the concrete classes, the same
    derived attributes. *)
Theorem read_record_or_singleton_list rt1 rt2 c key s uri body1 body2 m :
  self s !! "uri" = Some uri →
  requests_get rt1 (wire s) (request_for c uri) = Return (Response 200 body1) →
  json_loads rt1 body1 = Return (JDict [(key, JDict m)]) →
  requests_get rt2 (wire s) (request_for c uri) = Return (Response 200 body2) →
  json_loads rt2 body2 = Return (JDict [(key, JList [JDict m])]) →
  elsEntity.read rt1 c key s = elsEntity.read rt2 c key s
  ∧ (key = elsAuthor.payloadType → elsAuthor.read rt1 c s = elsAuthor.read rt2 c s)
  ∧ (key = elsAffil.payloadType → elsAffil.read rt1 c s = elsAffil.read rt2 c s)
  ∧ (key = elsDoc.payloadType → elsDoc.read rt1 c s = elsDoc.read rt2 c s).
Proof.
  intros Huri Hget1 Hloads1 Hget2 Hloads2.
  assert (elsEntity.read rt1 c key s = elsEntity.read rt2 c key s) as H.
  { rewrite (read_stores_data rt1 c key s uri body1 _ (JDict m))
      by eauto using getitem_singleton.
    rewrite (read_stores_data rt2 c key s uri body2 _ (JList [JDict m]))
      by eauto using getitem_singleton.
    reflexivity. }
  split; [exact H | by apply subclass_read_ext].
Qed.

Lemma read_record_or_singleton_list_witness :
  elsAuthor.read Scenario.jane_unwrapped_world Scenario.client
    Scenario.fresh_author
  = elsAuthor.read Scenario.jane_world Scenario.client Scenario.fresh_author.
Proof.
  destruct (read_record_or_singleton_list
              Scenario.jane_unwrapped_world Scenario.jane_world
              Scenario.client elsAuthor.payloadType Scenario.fresh_author
              (JStr Scenario.author_uri) "jane" "jane" Scenario.jane_record)
    as (_ & H & _); [reflexivity .. |].
  apply H. reflexivity.
Defined.

(** ** [read] on a response that lacks an expected key *)

Lemma dict_lacks k d :
  dict_get k d = None → getitem (JDict d) (Key k) = Raise (KeyError (Key k)).
Proof. intros H. simpl. by rewrite H. Qed.

Lemma read_lacks rt c key s uri body decoded k :
  self s !! "uri" = Some uri →
  requests_get rt (wire s) (request_for c uri) = Return (Response 200 body) →
  json_loads rt body = Return decoded →
  lacks key decoded k →
  ∃ s', elsEntity.read rt c key s = (Raise (KeyError (Key k)), s').
Proof.
  intros Huri Hget Hloads Hlacks.
  destruct Hlacks as [d -> Hnone | payload d Hpayload Hdata Hnone
                     | payload data d Hpayload Hdata Hcore Hnone];
    apply dict_lacks in Hnone.
  - eexists. unfold elsEntity.read, try_except.
    step. erewrite bind_Return by (erewrite execRequest_ok, Hloads; eauto).
    step. reflexivity.
  - eexists. erewrite read_stores_data by eassumption. unfold try_except.
    do 4 step. reflexivity.
  - eexists. erewrite read_stores_data by eassumption. unfold try_except.
    do 5 step. reflexivity.
Qed.

(** C8.  When a 200 response decodes to a body that lacks the payload key,
    ["coredata"] or ["dc:identifier"], [read] does not return [False]: the
    [KeyError] for the missing key reaches the caller, from the inherited
    [read] and from the [read] of each concrete class. *)
Theorem read_missing_key_raises rt c key s uri body decoded k :
  self s !! "uri" = Some uri →
  requests_get rt (wire s) (request_for c uri) = Return (Response 200 body) →
  json_loads rt body = Return decoded →
  lacks key decoded k →
  (elsEntity.read rt c key s).1 = Raise (KeyError (Key k))
  ∧ (key = elsAuthor.payloadType →
     (elsAuthor.read rt c s).1 = Raise (KeyError (Key k)))
  ∧ (key = elsAffil.payloadType →
     (elsAffil.read rt c s).1 = Raise (KeyError (Key k)))
  ∧ (key = elsDoc.payloadType →
     (elsDoc.read rt c s).1 = Raise (KeyError (Key k))).
Proof.
  intros Huri Hget Hloads Hlacks.
  destruct (read_lacks _ _ _ _ _ _ _ _ Huri Hget Hloads Hlacks) as [s' H].
  destruct (subclass_read_raises _ _ _ _ _ _ H) as (HA & HF & HD).
  rewrite H. repeat split; intros E;
    [rewrite (HA E) | rewrite (HF E) | rewrite (HD E)]; reflexivity.
Qed.

Lemma read_missing_key_raises_witness :
  (elsAuthor.read Scenario.anonymous_world Scenario.client
     Scenario.fresh_author).1
  = Raise (KeyError (Key "dc:identifier")).
Proof.
  destruct (read_missing_key_raises
              Scenario.anonymous_world Scenario.client elsAuthor.payloadType
              Scenario.fresh_author (JStr Scenario.author_uri) "anonymous"
              Scenario.anonymous "dc:identifier")
    as (_ & H & _); [reflexivity .. | | apply H; reflexivity].
  eapply lacks_identifier; reflexivity.
Defined.

(** ** The names of an author *)

(** One statement of a method body that is known to have returned, undone. *)
Ltac unstep H :=
  let v := fresh "v" in
  let s := fresh "s" in
  let Hv := fresh "Hv" in
  apply bind_inv in H as (v & s & Hv & H);
  lazymatch type of Hv with
  | self_get _ _ = _ => apply self_get_inv in Hv as [Hv ->]
  | self_set _ _ _ = _ => apply self_set_inv in Hv as ->
  | eval _ _ = _ => apply eval_inv in Hv as [Hv ->]
  end.

(** Whenever the [read] of an author returns [True], the three names are
    [str]s and the full name is the first name, a space and the last
    name. *)
Lemma author_read_names rt c s s' :
  elsAuthor.read rt c s = (Return true, s') →
  ∃ first last : string,
    self s' !! "firstName" = Some (JStr first)
    ∧ self s' !! "lastName" = Some (JStr last)
    ∧ self s' !! "fullName" = Some (JStr ((first +:+ " ") +:+ last)).
Proof.
  intros H. unfold elsAuthor.read in H.
  apply bind_inv in H as (ok & s1 & _ & H).
  destruct ok; [| by apply mret_inv in H as [? _]].
  do 15 unstep H. apply mret_inv in H as [_ ->].
  simpl in *. simplify_map_eq.
  repeat match goal with
         | E : str_add _ _ = Return _ |- _ =>
             apply str_add_inv in E as (? & ? & ? & ? & ?)
         end.
  simplify_eq. eauto.
Qed.

(** The example of the specification: [read] on the response for Jane
    Doe. *)
Lemma author_read_jane rt c s uri body :
  self s !! "uri" = Some uri →
  requests_get rt (wire s) (request_for c uri) = Return (Response 200 body) →
  json_loads rt body = Return Scenario.jane_doe →
  ∃ s', elsAuthor.read rt c s = (Return true, s')
        ∧ self s' !! "ID" = Some (JStr "AUTHOR_ID:123")
        ∧ self s' !! "firstName" = Some (JStr "Jane")
        ∧ self s' !! "lastName" = Some (JStr "Doe")
        ∧ self s' !! "fullName" = Some (JStr "Jane Doe").
Proof.
  intros Huri Hget Hloads. eexists. split.
  - unfold elsAuthor.read, elsProfile.read.
    erewrite bind_Return
      by (eapply read_ok; eauto; reflexivity).
    simpl.
    assert (∀ s0 : state, self_get "data"
              (assigned (assigned s0 "data" (JDict Scenario.jane_record))
                 "ID" (JStr "AUTHOR_ID:123"))
            = (Return (JDict Scenario.jane_record),
               assigned (assigned s0 "data" (JDict Scenario.jane_record))
                 "ID" (JStr "AUTHOR_ID:123"))) as Hdata.
    { intros s0. apply self_get_run. simpl. by simplify_map_eq. }
    erewrite bind_Return by apply Hdata.
    do 4 step.
    erewrite bind_Return by (apply self_get_run; simpl; by simplify_map_eq).
    do 4 step.
    erewrite bind_Return by (apply self_get_run; simpl; by simplify_map_eq).
    step.
    erewrite bind_Return by (apply self_get_run; simpl; by simplify_map_eq).
    do 2 step. reflexivity.
  - simpl. by simplify_map_eq.
Qed.

(** C7.  After a [read] of an author that returns [True], [fullName] is
    [firstName + " " + lastName]; and on the response of the specification's
    example [read] returns [True] with [ID] ["AUTHOR_ID:123"], [firstName]
    ["Jane"], [lastName] ["Doe"] and [fullName] ["Jane Doe"]. *)
Theorem author_fullName rt c s :
  (∀ s', elsAuthor.read rt c s = (Return true, s') →
         ∃ first last : string,
           self s' !! "firstName" = Some (JStr first)
           ∧ self s' !! "lastName" = Some (JStr last)
           ∧ self s' !! "fullName" = Some (JStr ((first +:+ " ") +:+ last)))
  ∧ (∀ uri body,
       self s !! "uri" = Some uri →
       requests_get rt (wire s) (request_for c uri)
       = Return (Response 200 body) →
       json_loads rt body = Return Scenario.jane_doe →
       ∃ s', elsAuthor.read rt c s = (Return true, s')
             ∧ self s' !! "ID" = Some (JStr "AUTHOR_ID:123")
             ∧ self s' !! "firstName" = Some (JStr "Jane")
             ∧ self s' !! "lastName" = Some (JStr "Doe")
             ∧ self s' !! "fullName" = Some (JStr "Jane Doe")).
Proof.
  split.
  - intros s'. apply author_read_names.
  - intros uri body. apply author_read_jane.
Qed.

Lemma author_fullName_witness :
  (∃ first last : string,
     self (elsAuthor.read Scenario.jane_world Scenario.client
             Scenario.fresh_author).2 !! "fullName"
     = Some (JStr ((first +:+ " ") +:+ last)))
  ∧ ∃ s', elsAuthor.read Scenario.jane_world Scenario.client
            Scenario.fresh_author = (Return true, s')
          ∧ self s' !! "fullName" = Some (JStr "Jane Doe").
Proof.
  destruct (author_fullName Scenario.jane_world Scenario.client
              Scenario.fresh_author) as [Hnames Hjane].
  split.
  - destruct (Hnames (elsAuthor.read Scenario.jane_world Scenario.client
                        Scenario.fresh_author).2)
      as (first & last & _ & _ & H); [reflexivity |].
    exists first, last. exact H.
  - destruct (Hjane (JStr Scenario.author_uri) "jane")
      as (s' & Hread & _ & _ & _ & Hfull); [reflexivity .. |].
    exists s'. split; [exact Hread | exact Hfull].
Defined.

(** ** [readDocs] *)

Lemma for_each_app {A} (l1 l2 : list A) (body : A → M unit) s :
  for_each (l1 ++ l2) body s = (for_each l1 body ;; for_each l2 body) s.
Proof.
  revert s. induction l1 as [|i l1 IH]; intros s; simpl.
  - reflexivity.
  - rewrite bind_assoc. destruct (body i s) as [[[]|e] s1] eqn:E.
    + rewrite !(bind_Return _ _ _ _ _ E). apply IH.
    + by rewrite !(bind_Raise _ _ _ _ _ E).
Qed.

Lemma normalize_run decoded key payload (s : state) :
  getitem decoded (Key key) = Return payload →
  (if isinstance_list payload
   then payload ← eval (getitem decoded (Key key));
        eval (getitem payload (Idx 0))
   else eval (getitem decoded (Key key))) s
  = (normalized payload, s).
Proof.
  intros H. unfold normalized. destruct (isinstance_list payload).
  - by step.
  - by rewrite eval_run, H.
Qed.

(** One further page that arrives: its documents are appended. *)
Lemma readDocs_page_ok rt c key s u i acc documents docs :
  self s !! "uri" = Some (JStr u) →
  self s !! "docList" = Some (JList acc) →
  serves rt key (wire s)
    (request_for c (page_url u (elsClient.numRes c) i)) documents docs →
  elsProfile.readDocs_page rt c key i s
  = (Return tt,
     assigned (sent s (request_for c (page_url u (elsClient.numRes c) i)))
       "docList" (JList (acc ++ docs))).
Proof.
  intros Huri Hacc
    [body decoded payload data abstracts
       Hget Hloads Hpayload Hdata Hdocuments Habstracts Hlist].
  unfold elsProfile.readDocs_page.
  do 3 step.
  erewrite bind_Return
    by (unfold page_url in Hget; erewrite execRequest_ok, Hloads; eauto).
  step.
  erewrite bind_Return
    by (rewrite normalize_run; [f_equal; eassumption | eassumption]).
  do 5 step. reflexivity.
Qed.

(** One further page that fails: nothing is appended. *)
Lemma readDocs_page_status rt c key s u i r :
  self s !! "uri" = Some (JStr u) →
  requests_get rt (wire s) (request_for c (page_url u (elsClient.numRes c) i))
  = Return r →
  status_code r ≠ 200%Z →
  elsProfile.readDocs_page rt c key i s
  = (Raise TypeError,
     sent s (request_for c (page_url u (elsClient.numRes c) i))).
Proof.
  intros Huri Hget Hne. unfold elsProfile.readDocs_page.
  do 3 step.
  erewrite bind_Raise
    by (unfold page_url in Hget; eapply execRequest_status; eauto).
  reflexivity.
Qed.

Lemma fetched_nil c u s acc :
  self s !! "docList" = Some (JList acc) → fetched c u s [] acc = s.
Proof.
  intros H. destruct s as [o w]. unfold fetched. simpl in *.
  by rewrite insert_id, app_nil_r.
Qed.

(** The loop, when every page arrives. *)
Lemma readDocs_loop_ok rt c key u idxs : ∀ pages s acc,
  self s !! "uri" = Some (JStr u) →
  self s !! "docList" = Some (JList acc) →
  pages_served rt key c (wire s)
    (map (page_url u (elsClient.numRes c)) idxs) pages →
  for_each idxs (elsProfile.readDocs_page rt c key) s
  = (Return tt, fetched c u s idxs (acc ++ concat pages)).
Proof.
  induction idxs as [|i idxs IH]; intros pages s acc Huri Hacc Hserved.
  - destruct pages; [| done]. simpl.
    by rewrite app_nil_r, fetched_nil.
  - destruct pages as [|docs pages]; [done |].
    destruct Hserved as [[documents Hpage] Hserved]. simpl.
    erewrite bind_Return by (eapply readDocs_page_ok; eauto).
    erewrite (IH pages _ (acc ++ docs)); simpl; eauto.
    + unfold fetched. simpl.
      by rewrite insert_insert_eq, <- !app_assoc.
    + by rewrite lookup_insert_ne.
    + apply lookup_insert_eq.
Qed.

(** The loop, when the pages of [idxs] arrive and the next one fails. *)
Lemma readDocs_loop_status rt c key u idxs j rest pages s acc r :
  self s !! "uri" = Some (JStr u) →
  self s !! "docList" = Some (JList acc) →
  pages_served rt key c (wire s)
    (map (page_url u (elsClient.numRes c)) idxs) pages →
  requests_get rt (wire (fetched c u s idxs (acc ++ concat pages)))
    (request_for c (page_url u (elsClient.numRes c) j)) = Return r →
  status_code r ≠ 200%Z →
  for_each (idxs ++ j :: rest) (elsProfile.readDocs_page rt c key) s
  = (Raise TypeError,
     sent (fetched c u s idxs (acc ++ concat pages))
       (request_for c (page_url u (elsClient.numRes c) j))).
Proof.
  intros Huri Hacc Hserved Hget Hne.
  rewrite for_each_app.
  erewrite bind_Return by (eapply readDocs_loop_ok; eauto).
  simpl.
  erewrite bind_Raise; [reflexivity |].
  eapply readDocs_page_status; eauto.
  simpl. by rewrite lookup_insert_ne.
Qed.

(** [readDocs] up to the loop, when the first page arrives: the documents
    of the first page are stored, and the loop runs over the further page
    indices. *)
Lemma readDocs_first_page rt c key s u documents docs0 total T :
  self s !! "uri" = Some (JStr u) →
  serves rt key (wire s) (request_for c (first_url u)) documents docs0 →
  getitem documents (Key "@total") = Return total →
  builtin_int rt total = Return T →
  elsProfile.readDocs rt c key s
  = try_except
      (pages ← eval (floordiv T (elsClient.numRes c));
       for_each (range0 pages) (elsProfile.readDocs_page rt c key);;
       mret true)
      (mret false)
      (assigned (sent s (request_for c (first_url u))) "docList" (JList docs0)).
Proof.
  intros Huri
    [body decoded payload data abstracts
       Hget Hloads Hpayload Hdata Hdocuments Habstracts Hlist]
    Htotal Hint.
  unfold elsProfile.readDocs, try_except.
  do 2 step.
  erewrite bind_Return
    by (unfold first_url in Hget; erewrite execRequest_ok, Hloads; eauto).
  step.
  erewrite bind_Return
    by (rewrite normalize_run; [f_equal; eassumption | eassumption]).
  do 7 step. reflexivity.
Qed.

(** [readDocs] when the first request fails. *)
Lemma readDocs_first_status rt c key s u r :
  self s !! "uri" = Some (JStr u) →
  requests_get rt (wire s) (request_for c (first_url u)) = Return r →
  status_code r ≠ 200%Z →
  elsProfile.readDocs rt c key s
  = (Raise TypeError, sent s (request_for c (first_url u))).
Proof.
  intros Huri Hget Hne. unfold elsProfile.readDocs, try_except.
  do 2 step.
  erewrite bind_Raise
    by (unfold first_url in Hget; eapply execRequest_status; eauto).
  reflexivity.
Qed.

Lemma floordiv_run T P : P ≠ 0%Z → floordiv T P = Return (T `div` P)%Z.
Proof. intros H. unfold floordiv. by apply Z.eqb_neq in H as ->. Qed.

Lemma range0_split n j :
  (0 ≤ j < n)%Z → range0 n = range0 j ++ j :: seqZ (Z.succ j) (Z.pred (n - j)).
Proof.
  intros H. unfold range0.
  replace n with (j + (n - j))%Z at 1 by lia.
  rewrite seqZ_app by lia. f_equal. rewrite Z.add_0_l.
  apply seqZ_cons. lia.
Qed.

(** C3.  Let the first page arrive with total [T], let the page size [P] be
    positive, and let the requests for the further pages all succeed,
    bringing the document lists [pages].  Then [readDocs] returns [True],
    having sent the request for [uri + "?view=documents"] and then, for each
    [i] from 0 below [T // P], the request for
    [uri + "?view=documents&start=" + str((i+1)*P + 1)], which makes
    [1 + T // P] requests; [docList] is the concatenation of the lists of
    all the pages, so its length is the sum of theirs.  For 30 documents and
    pages of 25 the requests are two, the second with [start=26]. *)
Theorem readDocs_pagination rt c key s u P documents docs0 total T pages :
  elsClient.numRes c = P →
  (0 ≤ T)%Z →
  (0 < P)%Z →
  self s !! "uri" = Some (JStr u) →
  serves rt key (wire s) (request_for c (first_url u)) documents docs0 →
  getitem documents (Key "@total") = Return total →
  builtin_int rt total = Return T →
  pages_served rt key c (wire s ++ [request_for c (first_url u)])
    (map (page_url u P) (range0 (T `div` P))) pages →
  ∃ s' urls docList,
    elsProfile.readDocs rt c key s = (Return true, s')
    ∧ wire s' = wire s ++ map (request_for c) urls
    ∧ urls = first_url u :: map (page_url u P) (range0 (T `div` P))
    ∧ Z.of_nat (length urls) = (1 + T `div` P)%Z
    ∧ (∀ i : nat, (Z.of_nat i < T `div` P)%Z →
         urls !! S i
         = Some (JStr ((u +:+ "?view=documents&start=")
                       +:+ str_of_int ((Z.of_nat i + 1) * P + 1))))
    ∧ self s' !! "docList" = Some (JList docList)
    ∧ docList = docs0 ++ concat pages
    ∧ length docList = list_sum (map length (docs0 :: pages))
    ∧ (T = 30%Z → P = 25%Z →
       urls = [JStr (u +:+ "?view=documents");
               JStr ((u +:+ "?view=documents&start=") +:+ "26")]).
Proof.
  intros HP HT Hpos Huri Hfirst Htotal Hint Hserved. subst P.
  assert (0 ≤ T `div` elsClient.numRes c)%Z as Hn by (apply Z.div_pos; lia).
  set (n := (T `div` elsClient.numRes c)%Z) in *.
  set (first := request_for c (first_url u)) in *.
  exists (fetched c u (assigned (sent s first) "docList" (JList docs0))
            (range0 n) (docs0 ++ concat pages)),
    (first_url u :: map (page_url u (elsClient.numRes c)) (range0 n)),
    (docs0 ++ concat pages).
  split; [| split; [| split; [reflexivity |]]].
  - erewrite readDocs_first_page by eassumption. unfold try_except.
    erewrite bind_Return by (rewrite eval_run, floordiv_run; [done | lia]).
    erewrite bind_Return
      by (eapply readDocs_loop_ok; simpl; eauto; by simplify_map_eq).
    reflexivity.
  - simpl. rewrite <- app_assoc. simpl. by rewrite map_map.
  - split; [| split; [| split; [| split; [reflexivity | split]]]].
    + simpl. rewrite length_map. unfold range0. rewrite length_seqZ. lia.
    + intros i Hi. simpl. rewrite list_lookup_fmap. unfold range0.
      rewrite (lookup_seqZ_lt _ _ i) by lia. simpl.
      by rewrite Z.add_0_l.
    + simpl. apply lookup_insert_eq.
    + simpl. by rewrite length_app, length_concat.
    + intros -> E. subst n. rewrite E. reflexivity.
Qed.

Lemma readDocs_pagination_witness :
  ∃ s', elsAuthor.readDocs Scenario.thirty_docs Scenario.client
          Scenario.fresh_author = (Return true, s')
        ∧ map url (wire s')
          = [JStr (Scenario.author_uri +:+ "?view=documents");
             JStr (Scenario.author_uri +:+ "?view=documents&start=26")]
        ∧ self s' !! "docList"
          = Some (JList [Scenario.doc "a"; Scenario.doc "b"; Scenario.doc "c"]).
Proof.
  destruct (readDocs_pagination Scenario.thirty_docs Scenario.client
              elsAuthor.payloadType Scenario.fresh_author Scenario.author_uri
              25
              (JDict [("@total", JStr "30");
                      ("abstract-document",
                       JList [Scenario.doc "a"; Scenario.doc "b"])])
              [Scenario.doc "a"; Scenario.doc "b"] (JStr "30") 30
              [[Scenario.doc "c"]])
    as (s' & urls & docList & Hrun & Hwire & Hurls & _ & _ & Hdocs & Hlist & _).
  - reflexivity.
  - lia.
  - lia.
  - reflexivity.
  - eapply Serves; reflexivity.
  - reflexivity.
  - reflexivity.
  - split; [| exact I]. eexists. eapply Serves; reflexivity.
  - exists s'. split; [exact Hrun |]. split.
    + rewrite Hwire, Hurls. reflexivity.
    + rewrite Hdocs, Hlist. reflexivity.
Defined.

(** ** [readDocs] when a page fails *)

(** C4, as the code has it.  When a request of [readDocs] is answered with a
    status other than 200, [readDocs] does not return [True], and [docList]
    is what had been accumulated up to the failing request: if the first
    request fails the attributes are those from before the call; if the
    page of index [j] fails after the first page and the pages of the
    indices below [j] have arrived, [docList] is the concatenation of the
    document lists of those pages. *)
Theorem readDocs_failure_keeps_fetched rt c key s u :
  self s !! "uri" = Some (JStr u) →
  (∀ r,
     requests_get rt (wire s) (request_for c (first_url u)) = Return r →
     status_code r ≠ 200%Z →
     ∃ o s', elsProfile.readDocs rt c key s = (o, s')
             ∧ o ≠ Return true
             ∧ self s' = self s)
  ∧ (∀ documents docs0 total T j pages r,
       serves rt key (wire s) (request_for c (first_url u)) documents docs0 →
       getitem documents (Key "@total") = Return total →
       builtin_int rt total = Return T →
       (0 ≤ j < T `div` elsClient.numRes c)%Z →
       pages_served rt key c (wire s ++ [request_for c (first_url u)])
         (map (page_url u (elsClient.numRes c)) (range0 j)) pages →
       requests_get rt
         (wire s ++ map (request_for c)
                      (first_url u
                       :: map (page_url u (elsClient.numRes c)) (range0 j)))
         (request_for c (page_url u (elsClient.numRes c) j)) = Return r →
       status_code r ≠ 200%Z →
       ∃ o s', elsProfile.readDocs rt c key s = (o, s')
               ∧ o ≠ Return true
               ∧ self s' = <["docList" := JList (docs0 ++ concat pages)]> (self s)).
Proof.
  intros Huri. split.
  - intros r Hget Hne. eexists _, _. split; [| split].
    + by eapply readDocs_first_status.
    + done.
    + reflexivity.
  - intros documents docs0 total T j pages r Hfirst Htotal Hint Hj Hserved
      Hget Hne.
    assert (elsClient.numRes c ≠ 0%Z) as HP.
    { intros E. rewrite E, Z.div_0_r in Hj. lia. }
    eexists _, _. split; [| split].
    + erewrite readDocs_first_page by eassumption. unfold try_except.
      erewrite bind_Return by (rewrite eval_run, floordiv_run; done).
      rewrite (range0_split _ j) by lia.
      erewrite bind_Raise; cycle 1.
      { eapply readDocs_loop_status; simpl; eauto; try by simplify_map_eq.
        simpl in *. rewrite <- app_assoc. simpl.
        rewrite map_map in Hget. exact Hget. }
      reflexivity.
    + done.
    + simpl. by rewrite insert_insert_eq.
Qed.

Lemma readDocs_failure_keeps_fetched_witness :
  ∃ o s', elsAuthor.readDocs Scenario.second_page_fails Scenario.client
            Scenario.fresh_author = (o, s')
          ∧ o ≠ Return true
          ∧ self s'
            = <["docList" := JList (map Scenario.doc ["a"; "b"])]>
                (self Scenario.fresh_author).
Proof.
  destruct (readDocs_failure_keeps_fetched Scenario.second_page_fails
              Scenario.client elsAuthor.payloadType Scenario.fresh_author
              Scenario.author_uri) as [_ H]; [reflexivity |].
  apply (H (JDict [("@total", JStr "30");
                   ("abstract-document",
                    JList [Scenario.doc "a"; Scenario.doc "b"])])
           [Scenario.doc "a"; Scenario.doc "b"] (JStr "30") 30%Z 0%Z []
           (Response 500 "Internal Server Error")).
  - eapply Serves; reflexivity.
  - reflexivity.
  - reflexivity.
  - vm_compute. split; discriminate || reflexivity.
  - exact I.
  - reflexivity.
  - simpl. lia.
Defined.

(** C4, as the specification states it, fails: the second page is answered
    with a 500, and [readDocs] neither returns [False] (the [TypeError] of
    [execRequest] gets through) nor drops the first page: [docList], which
    the author did not have before the call, holds the first page's
    documents after it. *)
Lemma readDocs_keeps_partial_docList :
  let before := Scenario.fresh_author in
  let after := elsAuthor.readDocs Scenario.second_page_fails Scenario.client
                 before in
  self before !! "docList" = None
  ∧ self after.2 !! "docList"
    = Some (JList [Scenario.doc "a"; Scenario.doc "b"])
  ∧ after.1 = Raise TypeError.
Proof. vm_compute. auto. Qed.

(** * Further properties of the module *)

(** ** Which attributes a method may change *)

Lemma preserves_mret {A} names (a : A) : preserves names (mret a).
Proof. by intros s name _. Qed.

Lemma preserves_raise {A} names e : preserves names (raise (A := A) e).
Proof. by intros s name _. Qed.

Lemma preserves_eval {A} names (o : outcome A) : preserves names (eval o).
Proof. by intros s name _. Qed.

Lemma preserves_self_get names name : preserves names (self_get name).
Proof. by intros s name' _. Qed.

Lemma preserves_self_set names name v :
  name ∈ names → preserves names (self_set name v).
Proof.
  intros Hin s name' Hout. simpl.
  apply lookup_insert_ne. by intros ->.
Qed.

Lemma preserves_bind {A B} names (m : M A) (k : A → M B) :
  preserves names m → (∀ a, preserves names (k a)) →
  preserves names (m ≫= k).
Proof.
  intros Hm Hk s name Hout. specialize (Hm s name Hout).
  unfold mbind, M_bind. destruct (m s) as [[a|e] s1]; simpl in *.
  - by rewrite (Hk a s1 name Hout).
  - done.
Qed.

Lemma preserves_try_except {A} names (body handler : M A) :
  preserves names body → preserves names handler →
  preserves names (try_except body handler).
Proof.
  intros Hb Hh s name Hout. specialize (Hb s name Hout).
  unfold try_except. destruct (body s) as [[a|e] s1]; simpl in *; [done |].
  destruct (is_RequestException e); simpl; [| done].
  by rewrite (Hh s1 name Hout).
Qed.

Lemma preserves_for_each {A} names (l : list A) (body : A → M unit) :
  (∀ i, preserves names (body i)) → preserves names (for_each l body).
Proof.
  intros Hb. induction l as [|i l IH]; simpl.
  - apply preserves_mret.
  - apply preserves_bind; [apply Hb | by intros _].
Qed.

Lemma preserves_execRequest rt names c URL :
  preserves names (elsClient.execRequest rt c URL).
Proof. intros s name _. by rewrite execRequest_wire. Qed.

Lemma preserves_weaken {A} names names' (m : M A) :
  names ⊆ names' → preserves names m → preserves names' m.
Proof. intros Hsub Hm s name Hout. apply Hm. intros Hin. by apply Hout, Hsub. Qed.

(** A method body, statement by statement. *)
Ltac frame :=
  repeat first
    [ apply preserves_mret
    | apply preserves_raise
    | apply preserves_eval
    | apply preserves_self_get
    | apply preserves_execRequest
    | apply preserves_self_set;
      repeat first [apply list_elem_of_here | apply list_elem_of_further]
    | apply preserves_try_except
    | apply preserves_for_each; intros ?
    | apply preserves_bind; [| intros ?]
    | match goal with
      | |- preserves _ (if ?b then _ else _) => destruct b
      end ].

Lemma read_preserves rt c key :
  preserves entity_attrs (elsEntity.read rt c key).
Proof. unfold elsEntity.read, entity_attrs. frame. Qed.

Lemma readDocs_preserves rt c key :
  preserves ["docList"] (elsProfile.readDocs rt c key).
Proof. unfold elsProfile.readDocs, elsProfile.readDocs_page. frame. Qed.

Lemma entity_attrs_included :
  entity_attrs ⊆ author_attrs ∧ entity_attrs ⊆ affil_attrs
  ∧ entity_attrs ⊆ doc_attrs.
Proof.
  repeat split; intros x Hx;
    (apply elem_of_cons in Hx as [-> | Hx];
     [ apply list_elem_of_here
     | apply elem_of_cons in Hx as [-> | Hx];
       [ apply list_elem_of_further, list_elem_of_here
       | by apply elem_of_nil in Hx ] ]).
Qed.

Lemma subclass_read_preserves rt c :
  preserves author_attrs (elsAuthor.read rt c)
  ∧ preserves affil_attrs (elsAffil.read rt c)
  ∧ preserves doc_attrs (elsDoc.read rt c).
Proof.
  destruct entity_attrs_included as (HA & HF & HD).
  repeat split;
    unfold elsAuthor.read, elsAffil.read, elsDoc.read, elsProfile.read;
    (apply preserves_bind;
     [ eapply preserves_weaken; [eassumption | apply read_preserves]
     | intros [];
       unfold author_attrs, affil_attrs, doc_attrs; frame ]).
Qed.

Lemma getURI_lookup s : (elsEntity.getURI s).1 = getattr (self s) "uri".
Proof. reflexivity. Qed.

Lemma uri_not_assigned :
  ("uri" ∉ entity_attrs) ∧ ("uri" ∉ author_attrs) ∧ ("uri" ∉ affil_attrs)
  ∧ ("uri" ∉ doc_attrs) ∧ ("uri" ∉ ["docList"]).
Proof.
  repeat split; intros Hin;
    repeat (apply elem_of_cons in Hin as [Hin | Hin]; [discriminate |]);
    by apply elem_of_nil in Hin.
Qed.

(** X1.  A [read] assigns nothing but its own attributes, however it ends:
    [data] and [ID] for the inherited [read], and besides them the three
    names for an author, [name] for an affiliation and [title] for a
    document.  In particular [uri] stays, so [getURI] answers after the
    call what it answered before. *)
Theorem read_assigns_only_its_attributes rt c key s name :
  (name ∉ entity_attrs →
   self (elsEntity.read rt c key s).2 !! name = self s !! name)
  ∧ (name ∉ author_attrs →
     self (elsAuthor.read rt c s).2 !! name = self s !! name)
  ∧ (name ∉ affil_attrs →
     self (elsAffil.read rt c s).2 !! name = self s !! name)
  ∧ (name ∉ doc_attrs →
     self (elsDoc.read rt c s).2 !! name = self s !! name)
  ∧ (elsEntity.getURI (elsEntity.read rt c key s).2).1 = (elsEntity.getURI s).1
  ∧ (elsAuthor.getURI (elsAuthor.read rt c s).2).1 = (elsAuthor.getURI s).1
  ∧ (elsAffil.getURI (elsAffil.read rt c s).2).1 = (elsAffil.getURI s).1
  ∧ (elsDoc.getURI (elsDoc.read rt c s).2).1 = (elsDoc.getURI s).1.
Proof.
  destruct (subclass_read_preserves rt c) as (HA & HF & HD).
  pose proof (read_preserves rt c key) as HE.
  split; [apply HE |]. split; [apply HA |].
  split; [apply HF |]. split; [apply HD |].
  destruct uri_not_assigned as (UE & UA & UF & UD & _).
  unfold elsAuthor.getURI, elsAffil.getURI, elsDoc.getURI.
  rewrite !getURI_lookup. unfold getattr.
  by rewrite (HE s "uri" UE), (HA s "uri" UA), (HF s "uri" UF),
    (HD s "uri" UD).
Qed.

Lemma read_assigns_only_its_attributes_witness :
  self (elsAuthor.read Scenario.jane_world Scenario.client
          Scenario.fresh_author).2 !! "uri"
  = Some (JStr Scenario.author_uri).
Proof.
  destruct (read_assigns_only_its_attributes Scenario.jane_world
              Scenario.client elsAuthor.payloadType Scenario.fresh_author
              "uri") as (_ & H & _).
  rewrite H; [reflexivity |].
  unfold author_attrs. intros Hin.
  repeat (apply elem_of_cons in Hin as [Hin | Hin]; [discriminate |]).
  by apply elem_of_nil in Hin.
Defined.

(** X2.  [readDocs] assigns nothing but [docList], however it ends, for an
    author and for an affiliation; [getURI] answers after the call what it
    answered before. *)
Theorem readDocs_assigns_only_docList rt c s name :
  name ≠ "docList" →
  self (elsAuthor.readDocs rt c s).2 !! name = self s !! name
  ∧ self (elsAffil.readDocs rt c s).2 !! name = self s !! name
  ∧ (elsAuthor.getURI (elsAuthor.readDocs rt c s).2).1
    = (elsAuthor.getURI s).1
  ∧ (elsAffil.getURI (elsAffil.readDocs rt c s).2).1
    = (elsAffil.getURI s).1.
Proof.
  intros Hne. unfold elsAuthor.readDocs, elsAffil.readDocs.
  pose proof (readDocs_preserves rt c elsAuthor.payloadType) as HA.
  pose proof (readDocs_preserves rt c elsAffil.payloadType) as HF.
  assert (name ∉ ["docList"]) as Hout.
  { intros Hin. apply elem_of_cons in Hin as [-> | Hin]; [done |].
    by apply elem_of_nil in Hin. }
  destruct uri_not_assigned as (_ & _ & _ & _ & UL).
  split; [by apply HA |]. split; [by apply HF |].
  unfold elsAuthor.getURI, elsAffil.getURI.
  rewrite !getURI_lookup. unfold getattr.
  by rewrite (HA s "uri" UL), (HF s "uri" UL).
Qed.

Lemma readDocs_assigns_only_docList_witness :
  self (elsAuthor.readDocs Scenario.second_page_fails Scenario.client
          Scenario.fresh_author).2 !! "firstName"
  = Some (JStr "").
Proof.
  destruct (readDocs_assigns_only_docList Scenario.second_page_fails
              Scenario.client Scenario.fresh_author "firstName") as [H _];
    [discriminate |].
  rewrite H. reflexivity.
Defined.

(** ** [read], case by case *)

Lemma getitem_raises v i e :
  getitem v i = Raise e → is_RequestException e = false.
Proof. destruct v, i; simpl; repeat case_match; by intros [= <-]. Qed.

Lemma normalized_raises payload e :
  normalized payload = Raise e → is_RequestException e = false.
Proof.
  unfold normalized. destruct (isinstance_list payload);
    [apply getitem_raises | done].
Qed.

(** When the inherited [read] returns [False], so do the concrete ones, and
    they assign nothing further. *)
Lemma subclass_read_false rt c key s s' :
  elsEntity.read rt c key s = (Return false, s') →
  (key = elsAuthor.payloadType → elsAuthor.read rt c s = (Return false, s'))
  ∧ (key = elsAffil.payloadType → elsAffil.read rt c s = (Return false, s'))
  ∧ (key = elsDoc.payloadType → elsDoc.read rt c s = (Return false, s')).
Proof.
  intros H. repeat split; intros ->;
    unfold elsAuthor.read, elsAffil.read, elsDoc.read, elsProfile.read;
    by rewrite (bind_Return _ _ _ _ _ H).
Qed.

(** What [read] does with an exception of [execRequest]. *)
Lemma read_execRequest_raises rt c key s uri e s' :
  self s !! "uri" = Some uri →
  elsClient.execRequest rt c uri s = (Raise e, s') →
  elsEntity.read rt c key s = (handled e, s').
Proof.
  intros Huri H. unfold elsEntity.read, try_except, handled.
  step. erewrite bind_Raise by eassumption.
  by destruct (is_RequestException e).
Qed.

Lemma reads_execRequest_raises rt c key s uri e s' :
  self s !! "uri" = Some uri →
  elsClient.execRequest rt c uri s = (Raise e, s') →
  elsEntity.read rt c key s = (handled e, s')
  ∧ (key = elsAuthor.payloadType → elsAuthor.read rt c s = (handled e, s'))
  ∧ (key = elsAffil.payloadType → elsAffil.read rt c s = (handled e, s'))
  ∧ (key = elsDoc.payloadType → elsDoc.read rt c s = (handled e, s')).
Proof.
  intros Huri H.
  pose proof (read_execRequest_raises rt c key s uri e s' Huri H) as HE.
  split; [exact HE |]. unfold handled in *.
  destruct (is_RequestException e).
  - by apply subclass_read_false.
  - by apply subclass_read_raises.
Qed.

(** X3.  When [requests.get] itself raises (no connection, a timeout, a
    malformed URL), every [read] returns [False] if the exception belongs to
    the [RequestException] hierarchy and lets it through otherwise; one
    request has been attempted and no attribute has changed. *)
Theorem read_when_get_raises rt c key s uri e :
  self s !! "uri" = Some uri →
  requests_get rt (wire s) (request_for c uri) = Raise e →
  elsEntity.read rt c key s = (handled e, sent s (request_for c uri))
  ∧ (key = elsAuthor.payloadType →
     elsAuthor.read rt c s = (handled e, sent s (request_for c uri)))
  ∧ (key = elsAffil.payloadType →
     elsAffil.read rt c s = (handled e, sent s (request_for c uri)))
  ∧ (key = elsDoc.payloadType →
     elsDoc.read rt c s = (handled e, sent s (request_for c uri)))
  ∧ (∀ cls, e = RequestException cls → handled e = Return false)
  ∧ self (sent s (request_for c uri)) = self s.
Proof.
  intros Huri Hget.
  destruct (reads_execRequest_raises rt c key s uri e
              (sent s (request_for c uri)) Huri) as (HE & HA & HF & HD);
    [by apply execRequest_unreachable |].
  repeat split; try done. by intros cls ->.
Qed.

Lemma read_when_get_raises_witness :
  elsAuthor.read Cases.offline Scenario.client Scenario.fresh_author
  = (Return false,
     sent Scenario.fresh_author
       (request_for Scenario.client (JStr Scenario.author_uri))).
Proof.
  destruct (read_when_get_raises Cases.offline Scenario.client
              elsAuthor.payloadType Scenario.fresh_author
              (JStr Scenario.author_uri) (RequestException "ConnectionError"))
    as (_ & H & _); [reflexivity .. |].
  apply H. reflexivity.
Defined.

(** X4.  When the body of a 200 response is not JSON, so that [json.loads]
    raises, every [read] lets that exception through (it would return
    [False] only for an exception of the [RequestException] hierarchy, which
    [ValueError] is not); no attribute has changed. *)
Theorem read_when_loads_raises rt c key s uri body e :
  self s !! "uri" = Some uri →
  requests_get rt (wire s) (request_for c uri) = Return (Response 200 body) →
  json_loads rt body = Raise e →
  elsEntity.read rt c key s = (handled e, sent s (request_for c uri))
  ∧ (key = elsAuthor.payloadType →
     elsAuthor.read rt c s = (handled e, sent s (request_for c uri)))
  ∧ (key = elsAffil.payloadType →
     elsAffil.read rt c s = (handled e, sent s (request_for c uri)))
  ∧ (key = elsDoc.payloadType →
     elsDoc.read rt c s = (handled e, sent s (request_for c uri)))
  ∧ handled ValueError = Raise ValueError
  ∧ self (sent s (request_for c uri)) = self s.
Proof.
  intros Huri Hget Hloads.
  destruct (reads_execRequest_raises rt c key s uri e
              (sent s (request_for c uri)) Huri) as (HE & HA & HF & HD);
    [by erewrite execRequest_ok, Hloads | done].
Qed.

Lemma read_when_loads_raises_witness :
  elsAuthor.read Cases.not_json Scenario.client Scenario.fresh_author
  = (Raise ValueError,
     sent Scenario.fresh_author
       (request_for Scenario.client (JStr Scenario.author_uri))).
Proof.
  destruct (read_when_loads_raises Cases.not_json Scenario.client
              elsAuthor.payloadType Scenario.fresh_author
              (JStr Scenario.author_uri) "<html>" ValueError)
    as (_ & H & _); [reflexivity .. |].
  apply H. reflexivity.
Defined.

(** X5.  A [read] that succeeds: on a 200 response whose body decodes to a
    value with the payload under the payload key, the payload (its first
    item, if it is a list) having an identifier in its core data, [read]
    returns [True], has sent the one request for [self.uri], and has
    replaced [data] by the payload and [ID] by the identifier; whatever
    [data] and [ID] held before is gone. *)
Theorem read_stores_payload_and_identifier
    rt c key s uri body decoded payload data coredata identifier :
  self s !! "uri" = Some uri →
  requests_get rt (wire s) (request_for c uri) = Return (Response 200 body) →
  json_loads rt body = Return decoded →
  getitem decoded (Key key) = Return payload →
  normalized payload = Return data →
  getitem data (Key "coredata") = Return coredata →
  getitem coredata (Key "dc:identifier") = Return identifier →
  elsEntity.read rt c key s
  = (Return true,
     {| self := <["ID" := identifier]> (<["data" := data]> (self s));
        wire := wire s ++ [request_for c uri] |}).
Proof. intros. by erewrite read_ok. Qed.

Lemma read_stores_payload_and_identifier_witness :
  elsEntity.read Scenario.jane_world Scenario.client elsAuthor.payloadType
    Scenario.populated_author
  = (Return true,
     {| self := <["ID" := JStr "AUTHOR_ID:123"]>
                  (<["data" := JDict Scenario.jane_record]>
                     (self Scenario.populated_author));
        wire := [request_for Scenario.client (JStr Scenario.author_uri)] |}).
Proof.
  apply (read_stores_payload_and_identifier Scenario.jane_world
           Scenario.client elsAuthor.payloadType Scenario.populated_author
           (JStr Scenario.author_uri) "jane" Scenario.jane_doe
           (JList [JDict Scenario.jane_record]) (JDict Scenario.jane_record)
           (JDict [("dc:identifier", JStr "AUTHOR_ID:123")])
           (JStr "AUTHOR_ID:123")); reflexivity.
Defined.

(** X6.  [read] assigns [data] before it looks for the identifier: when the
    payload is there but its core data or the identifier in it cannot be
    subscripted, [read] raises the lookup's exception with [data] already
    replaced by the new payload and [ID] left as it was. *)
Theorem read_commits_data_before_identifier
    rt c key s uri body decoded payload data e :
  self s !! "uri" = Some uri →
  requests_get rt (wire s) (request_for c uri) = Return (Response 200 body) →
  json_loads rt body = Return decoded →
  getitem decoded (Key key) = Return payload →
  normalized payload = Return data →
  (getitem data (Key "coredata") = Raise e
   ∨ ∃ coredata, getitem data (Key "coredata") = Return coredata
                 ∧ getitem coredata (Key "dc:identifier") = Raise e) →
  ∃ s', elsEntity.read rt c key s = (Raise e, s')
        ∧ self s' = <["data" := data]> (self s)
        ∧ self s' !! "data" = Some data
        ∧ self s' !! "ID" = self s !! "ID".
Proof.
  intros Huri Hget Hloads Hpayload Hdata Hcases.
  exists (assigned (sent s (request_for c uri)) "data" data).
  split; [| split; [reflexivity | split]].
  - erewrite read_stores_data by eassumption. unfold try_except.
    destruct Hcases as [Hcore | (coredata & Hcore & Hid)].
    + do 4 step. by rewrite (getitem_raises _ _ _ Hcore).
    + do 5 step. by rewrite (getitem_raises _ _ _ Hid).
  - simpl. apply lookup_insert_eq.
  - simpl. by rewrite lookup_insert_ne.
Qed.

Lemma read_commits_data_before_identifier_witness :
  ∃ s', elsEntity.read Scenario.anonymous_world Scenario.client
          elsAuthor.payloadType Scenario.populated_author
        = (Raise (KeyError (Key "dc:identifier")), s')
        ∧ self s' !! "data"
          = Some (JDict [("coredata", JDict [("prism:url", JStr "")])])
        ∧ self s' !! "ID" = Some (JStr "AUTHOR_ID:123").
Proof.
  destruct (read_commits_data_before_identifier Scenario.anonymous_world
              Scenario.client elsAuthor.payloadType Scenario.populated_author
              (JStr Scenario.author_uri) "anonymous" Scenario.anonymous
              (JList [JDict [("coredata", JDict [("prism:url", JStr "")])]])
              (JDict [("coredata", JDict [("prism:url", JStr "")])])
              (KeyError (Key "dc:identifier")))
    as (s' & Hrun & _ & Hdata & HID); [reflexivity .. | |].
  - right. eexists. split; reflexivity.
  - exists s'. split; [exact Hrun |]. split; [exact Hdata |].
    rewrite HID. reflexivity.
Defined.

(** X7.  When the payload cannot be taken out of the decoded body (the body
    is no mapping, the payload key is missing, or the payload is an empty
    list, whose first item does not exist), every [read] raises the
    exception of the failed subscript, and no attribute has changed. *)
Theorem read_without_payload_changes_nothing rt c key s uri body decoded e :
  self s !! "uri" = Some uri →
  requests_get rt (wire s) (request_for c uri) = Return (Response 200 body) →
  json_loads rt body = Return decoded →
  (getitem decoded (Key key) = Raise e
   ∨ ∃ payload, getitem decoded (Key key) = Return payload
                ∧ normalized payload = Raise e) →
  elsEntity.read rt c key s = (Raise e, sent s (request_for c uri))
  ∧ (key = elsAuthor.payloadType →
     elsAuthor.read rt c s = (Raise e, sent s (request_for c uri)))
  ∧ (key = elsAffil.payloadType →
     elsAffil.read rt c s = (Raise e, sent s (request_for c uri)))
  ∧ (key = elsDoc.payloadType →
     elsDoc.read rt c s = (Raise e, sent s (request_for c uri)))
  ∧ self (sent s (request_for c uri)) = self s
  ∧ normalized (JList []) = Raise IndexError.
Proof.
  intros Huri Hget Hloads Hcases.
  assert (elsEntity.read rt c key s = (Raise e, sent s (request_for c uri)))
    as H.
  { destruct Hcases as [Hpayload | (payload & Hpayload & Hdata)].
    - unfold elsEntity.read, try_except. step.
      erewrite bind_Return by (erewrite execRequest_ok, Hloads; eauto).
      step. by rewrite (getitem_raises _ _ _ Hpayload).
    - erewrite read_stores_data by eassumption. unfold try_except.
      step. by rewrite (normalized_raises _ _ Hdata). }
  split; [exact H |].
  destruct (subclass_read_raises _ _ _ _ _ _ H) as (HA & HF & HD).
  repeat split; done.
Qed.

Lemma read_without_payload_changes_nothing_witness :
  elsAuthor.read Cases.nobody Scenario.client Scenario.populated_author
  = (Raise IndexError,
     sent Scenario.populated_author
       (request_for Scenario.client (JStr Scenario.author_uri))).
Proof.
  destruct (read_without_payload_changes_nothing Cases.nobody Scenario.client
              elsAuthor.payloadType Scenario.populated_author
              (JStr Scenario.author_uri) "nobody"
              (JDict [("author-retrieval-response", JList [])]) IndexError)
    as (_ & H & _); [reflexivity .. | | apply H; reflexivity].
  right. eexists. split; reflexivity.
Defined.

(** X8.  Of a payload that is a list, [read] uses the first item and ignores
    the others: a response with the payload [[x, ...]] leaves every [read]
    with the same result and state as a response with the payload [x]
    (for [x] that is not itself a list). *)
Theorem read_uses_first_item
    rt1 rt2 c key s uri body1 body2 decoded1 decoded2 x others :
  self s !! "uri" = Some uri →
  requests_get rt1 (wire s) (request_for c uri) = Return (Response 200 body1) →
  json_loads rt1 body1 = Return decoded1 →
  getitem decoded1 (Key key) = Return x →
  isinstance_list x = false →
  requests_get rt2 (wire s) (request_for c uri) = Return (Response 200 body2) →
  json_loads rt2 body2 = Return decoded2 →
  getitem decoded2 (Key key) = Return (JList (x :: others)) →
  elsEntity.read rt1 c key s = elsEntity.read rt2 c key s
  ∧ (key = elsAuthor.payloadType → elsAuthor.read rt1 c s = elsAuthor.read rt2 c s)
  ∧ (key = elsAffil.payloadType → elsAffil.read rt1 c s = elsAffil.read rt2 c s)
  ∧ (key = elsDoc.payloadType → elsDoc.read rt1 c s = elsDoc.read rt2 c s).
Proof.
  intros Huri Hget1 Hloads1 Hx Hnolist Hget2 Hloads2 Hlist.
  assert (elsEntity.read rt1 c key s = elsEntity.read rt2 c key s) as H.
  { rewrite (read_stores_data rt1 c key s uri body1 decoded1 x) by done.
    rewrite (read_stores_data rt2 c key s uri body2 decoded2
               (JList (x :: others))) by done.
    unfold normalized. rewrite Hnolist. reflexivity. }
  split; [exact H | by apply subclass_read_ext].
Qed.

Lemma read_uses_first_item_witness :
  elsAuthor.read Scenario.jane_unwrapped_world Scenario.client
    Scenario.fresh_author
  = elsAuthor.read Cases.jane_and_john Scenario.client Scenario.fresh_author.
Proof.
  destruct (read_uses_first_item
              Scenario.jane_unwrapped_world Cases.jane_and_john
              Scenario.client elsAuthor.payloadType Scenario.fresh_author
              (JStr Scenario.author_uri) "jane" "two"
              Scenario.jane_doe_unwrapped
              (JDict [("author-retrieval-response",
                       JList [JDict Scenario.jane_record;
                              JDict [("coredata", JDict [])]])])
              (JDict Scenario.jane_record)
              [JDict [("coredata", JDict [])]])
    as (_ & H & _); [reflexivity .. |].
  apply H. reflexivity.
Defined.

(** ** How many requests a [read] makes *)

Lemma sends_nothing_mret {A} (a : A) : sends_nothing (mret a).
Proof. by intros s. Qed.

Lemma sends_nothing_eval {A} (o : outcome A) : sends_nothing (eval o).
Proof. by intros s. Qed.

Lemma sends_nothing_self_get name : sends_nothing (self_get name).
Proof. by intros s. Qed.

Lemma sends_nothing_self_set name v : sends_nothing (self_set name v).
Proof. by intros s. Qed.

Lemma sends_nothing_bind {A B} (m : M A) (k : A → M B) :
  sends_nothing m → (∀ a, sends_nothing (k a)) → sends_nothing (m ≫= k).
Proof.
  intros Hm Hk s. specialize (Hm s). unfold mbind, M_bind.
  destruct (m s) as [[a|e] s1]; simpl in *; [by rewrite Hk | done].
Qed.

Ltac quiet :=
  repeat first
    [ apply sends_nothing_mret
    | apply sends_nothing_eval
    | apply sends_nothing_self_get
    | apply sends_nothing_self_set
    | apply sends_nothing_bind; [| intros ?]
    | match goal with
      | |- sends_nothing (if ?b then _ else _) => destruct b
      end ].

Lemma wire_bind {A B} (m : M A) (k : A → M B) s :
  (∀ a, sends_nothing (k a)) → wire ((m ≫= k) s).2 = wire (m s).2.
Proof.
  intros Hk. unfold mbind, M_bind.
  destruct (m s) as [[a|e] s1]; simpl; [by rewrite Hk | done].
Qed.

Lemma wire_try_except {A} (body handler : M A) s :
  sends_nothing handler →
  wire (try_except body handler s).2 = wire (body s).2.
Proof.
  intros Hh. unfold try_except.
  destruct (body s) as [[a|e] s1]; simpl; [done |].
  destruct (is_RequestException e); simpl; [by rewrite Hh | done].
Qed.

Lemma read_wire rt c key s uri :
  self s !! "uri" = Some uri →
  wire (elsEntity.read rt c key s).2 = wire s ++ [request_for c uri].
Proof.
  intros Huri. unfold elsEntity.read.
  rewrite wire_try_except by apply sends_nothing_mret.
  step. rewrite wire_bind by (intros ?; quiet).
  by rewrite execRequest_wire.
Qed.

(** X9.  Every [read] of an entity with a [uri] makes exactly one call of
    [requests.get], for that [uri] and with the client's headers, whatever
    the answer is: there is no second attempt. *)
Theorem read_makes_one_request rt c key s uri :
  self s !! "uri" = Some uri →
  wire (elsEntity.read rt c key s).2 = wire s ++ [request_for c uri]
  ∧ wire (elsAuthor.read rt c s).2 = wire s ++ [request_for c uri]
  ∧ wire (elsAffil.read rt c s).2 = wire s ++ [request_for c uri]
  ∧ wire (elsDoc.read rt c s).2 = wire s ++ [request_for c uri].
Proof.
  intros Huri.
  split; [by apply read_wire |].
  unfold elsAuthor.read, elsAffil.read, elsDoc.read, elsProfile.read.
  repeat split;
    (rewrite wire_bind by (intros []; quiet)); by apply read_wire.
Qed.

Lemma read_makes_one_request_witness :
  wire (elsAuthor.read (Scenario.answering 503 "Service Unavailable")
          Scenario.client Scenario.fresh_author).2
  = [request_for Scenario.client (JStr Scenario.author_uri)].
Proof.
  destruct (read_makes_one_request (Scenario.answering 503 "Service Unavailable")
              Scenario.client elsAuthor.payloadType Scenario.fresh_author
              (JStr Scenario.author_uri)) as (_ & H & _); [reflexivity |].
  exact H.
Defined.

(** ** The headers of a request *)

(** X10.  The request an [execRequest] call sends has the API key under
    [X-ELS-APIKey], ["elsapy.py"] as [User-Agent] and ["application/json"]
    as [Accept]; besides these three it has only [X-ELS-Insttoken], and that
    only for a non-empty token. *)
Theorem request_headers_exact rt c URL s name :
  ∃ req,
    wire (elsClient.execRequest rt c URL s).2 = wire s ++ [req]
    ∧ headers req !! name
      = if decide (name = "X-ELS-APIKey") then Some (elsClient.apiKey c)
        else if decide (name = "User-Agent") then Some "elsapy.py"
        else if decide (name = "Accept") then Some "application/json"
        else if decide (name = "X-ELS-Insttoken")
             then (if truthy (elsClient.instToken c)
                   then Some (elsClient.instToken c) else None)
        else None.
Proof.
  exists (request_for c URL). rewrite execRequest_wire.
  split; [reflexivity |]. simpl. unfold elsClient.request_headers.
  destruct (truthy (elsClient.instToken c));
    repeat case_decide; by simplify_map_eq.
Qed.

(** ** The [read] of the concrete classes *)

Lemma read_delivers rt c key s uri data coredata identifier :
  self s !! "uri" = Some uri →
  delivers rt c key s uri data coredata identifier →
  elsEntity.read rt c key s = (Return true, populated c s uri data identifier).
Proof. intros Huri []. by eapply read_ok. Qed.

Lemma populated_data c s uri data identifier :
  self_get "data" (populated c s uri data identifier)
  = (Return data, populated c s uri data identifier).
Proof.
  apply self_get_run. simpl.
  by rewrite lookup_insert_ne, lookup_insert_eq.
Qed.

(** X11.  The [read] of an affiliation, once the inherited [read] has
    succeeded: if the payload has ["affiliation-name"], [name] is set to it
    and [True] is returned; if not, the exception of the lookup reaches the
    caller, with [data] and [ID] already replaced and [name] as it was. *)
Theorem affil_read_sets_name rt c s uri data coredata identifier :
  self s !! "uri" = Some uri →
  delivers rt c elsAffil.payloadType s uri data coredata identifier →
  elsAffil.read rt c s
  = match getitem data (Key "affiliation-name") with
    | Return name =>
        (Return true, assigned (populated c s uri data identifier) "name" name)
    | Raise e => (Raise e, populated c s uri data identifier)
    end.
Proof.
  intros Huri Hd. unfold elsAffil.read, elsProfile.read.
  erewrite bind_Return by by eapply read_delivers.
  cbv iota.
  erewrite bind_Return by apply populated_data.
  destruct (getitem data (Key "affiliation-name")) as [name|e] eqn:E.
  - do 2 step. reflexivity.
  - by step.
Qed.

Lemma affil_read_sets_name_witness :
  (∃ s', elsAffil.read (Cases.affiliation true) Scenario.client
           Cases.fresh_affil = (Return true, s')
         ∧ self s' !! "name" = Some (JStr "University of Toronto"))
  ∧ ∃ s', elsAffil.read (Cases.affiliation false) Scenario.client
            Cases.fresh_affil
          = (Raise (KeyError (Key "affiliation-name")), s')
          ∧ self s' !! "ID" = Some (JStr "AFFILIATION_ID:60016849")
          ∧ self s' !! "name" = None.
Proof.
  split.
  - eexists. split.
    + apply (affil_read_sets_name (Cases.affiliation true) Scenario.client
               Cases.fresh_affil (JStr Cases.affil_uri)
               (Cases.affil_record true)
               (JDict [("dc:identifier", JStr "AFFILIATION_ID:60016849")])
               (JStr "AFFILIATION_ID:60016849"));
        [reflexivity | eapply Delivers; reflexivity].
    + reflexivity.
  - eexists. split.
    + apply (affil_read_sets_name (Cases.affiliation false) Scenario.client
               Cases.fresh_affil (JStr Cases.affil_uri)
               (Cases.affil_record false)
               (JDict [("dc:identifier", JStr "AFFILIATION_ID:60016849")])
               (JStr "AFFILIATION_ID:60016849"));
        [reflexivity | eapply Delivers; reflexivity].
    + split; reflexivity.
Defined.

(** X12.  The [read] of a document, once the inherited [read] has
    succeeded: if the core data has ["dc:title"], [title] is set to it and
    [True] is returned; if not, the exception of the lookup reaches the
    caller, with [data] and [ID] already replaced and [title] as it was. *)
Theorem doc_read_sets_title rt c s uri data coredata identifier :
  self s !! "uri" = Some uri →
  delivers rt c elsDoc.payloadType s uri data coredata identifier →
  elsDoc.read rt c s
  = match getitem coredata (Key "dc:title") with
    | Return title =>
        (Return true,
         assigned (populated c s uri data identifier) "title" title)
    | Raise e => (Raise e, populated c s uri data identifier)
    end.
Proof.
  intros Huri Hd. unfold elsDoc.read.
  erewrite bind_Return by by eapply read_delivers.
  cbv iota.
  erewrite bind_Return by apply populated_data.
  destruct Hd as [body decoded payload _ _ _ _ Hcore _].
  step.
  destruct (getitem coredata (Key "dc:title")) as [title|e] eqn:E.
  - do 2 step. reflexivity.
  - by step.
Qed.

Lemma doc_read_sets_title_witness :
  (∃ s', elsDoc.read (Cases.document true) Scenario.client Cases.fresh_doc
         = (Return true, s')
         ∧ self s' !! "title" = Some (JStr "On the electrodynamics"))
  ∧ ∃ s', elsDoc.read (Cases.document false) Scenario.client Cases.fresh_doc
          = (Raise (KeyError (Key "dc:title")), s')
          ∧ self s' !! "ID" = Some (JStr "SCOPUS_ID:84872135457")
          ∧ self s' !! "title" = None.
Proof.
  split.
  - eexists. split.
    + apply (doc_read_sets_title (Cases.document true) Scenario.client
               Cases.fresh_doc (JStr Cases.doc_uri)
               (JDict [("coredata", Cases.doc_coredata true)])
               (Cases.doc_coredata true) (JStr "SCOPUS_ID:84872135457"));
        [reflexivity | eapply Delivers; reflexivity].
    + reflexivity.
  - eexists. split.
    + apply (doc_read_sets_title (Cases.document false) Scenario.client
               Cases.fresh_doc (JStr Cases.doc_uri)
               (JDict [("coredata", Cases.doc_coredata false)])
               (Cases.doc_coredata false) (JStr "SCOPUS_ID:84872135457"));
        [reflexivity | eapply Delivers; reflexivity].
    + split; reflexivity.
Defined.

Lemma str_add_raises a b e : str_add a b = Raise e → e = TypeError.
Proof. destruct a, b; simpl; by intros [= <-]. Qed.

(** The [read] of an author up to the assignment of [firstName]. *)
Lemma author_read_first_name
    rt c s uri data coredata identifier profile preferred given :
  self s !! "uri" = Some uri →
  delivers rt c elsAuthor.payloadType s uri data coredata identifier →
  getitem data (Key "author-profile") = Return profile →
  getitem profile (Key "preferred-name") = Return preferred →
  getitem preferred (Key "given-name") = Return given →
  elsAuthor.read rt c s
  = (surname ← eval (getitem preferred (Key "surname"));
     self_set "lastName" surname;;
     firstName ← self_get "firstName";
     spaced ← eval (str_add firstName (JStr " "));
     lastName ← self_get "lastName";
     fullName ← eval (str_add spaced lastName);
     self_set "fullName" fullName;;
     mret true)
      (assigned (populated c s uri data identifier) "firstName" given).
Proof.
  intros Huri Hd Hprofile Hpreferred Hgiven.
  unfold elsAuthor.read, elsProfile.read.
  erewrite bind_Return by by eapply read_delivers.
  cbv iota.
  erewrite bind_Return by apply populated_data.
  do 4 step.
  erewrite bind_Return by (apply self_get_run; simpl; by simplify_map_eq).
  by do 2 step.
Qed.

(** X13.  The [read] of an author assigns [firstName] before it looks for
    the surname: when the preferred name has a given name but the surname
    cannot be found, the lookup's exception reaches the caller with
    [firstName] already replaced, and [lastName] and [fullName] as they
    were. *)
Theorem author_read_without_surname
    rt c s uri data coredata identifier profile preferred given e :
  self s !! "uri" = Some uri →
  delivers rt c elsAuthor.payloadType s uri data coredata identifier →
  getitem data (Key "author-profile") = Return profile →
  getitem profile (Key "preferred-name") = Return preferred →
  getitem preferred (Key "given-name") = Return given →
  getitem preferred (Key "surname") = Raise e →
  ∃ s', elsAuthor.read rt c s = (Raise e, s')
        ∧ self s' !! "firstName" = Some given
        ∧ self s' !! "lastName" = self s !! "lastName"
        ∧ self s' !! "fullName" = self s !! "fullName".
Proof.
  intros Huri Hd Hprofile Hpreferred Hgiven Hsurname.
  eexists. split.
  - erewrite author_read_first_name by eassumption. by step.
  - simpl. by simplify_map_eq.
Qed.

Lemma author_read_without_surname_witness :
  ∃ s', elsAuthor.read (Cases.author_world [("given-name", JStr "Ada")])
          Scenario.client Scenario.populated_author
        = (Raise (KeyError (Key "surname")), s')
        ∧ self s' !! "firstName" = Some (JStr "Ada")
        ∧ self s' !! "lastName" = Some (JStr "Doe")
        ∧ self s' !! "fullName" = Some (JStr "Jane Doe").
Proof.
  destruct (author_read_without_surname
              (Cases.author_world [("given-name", JStr "Ada")])
              Scenario.client Scenario.populated_author
              (JStr Scenario.author_uri)
              (Cases.author_named [("given-name", JStr "Ada")])
              (JDict [("dc:identifier", JStr "AUTHOR_ID:7")])
              (JStr "AUTHOR_ID:7")
              (JDict [("preferred-name", JDict [("given-name", JStr "Ada")])])
              (JDict [("given-name", JStr "Ada")]) (JStr "Ada")
              (KeyError (Key "surname")))
    as (s' & Hrun & Hfirst & Hlast & Hfull);
    [reflexivity | eapply Delivers; reflexivity | reflexivity .. |].
  exists s'. split; [exact Hrun |]. split; [exact Hfirst |].
  rewrite Hlast, Hfull. split; reflexivity.
Defined.

(** X14.  When the given name and the surname are both there but are not
    both [str]s (a number or [null], say), the [read] of an author raises
    [TypeError] while building the full name: [firstName] and [lastName]
    hold the two values, and [fullName] is as it was. *)
Theorem author_read_names_not_str
    rt c s uri data coredata identifier profile preferred given surname :
  self s !! "uri" = Some uri →
  delivers rt c elsAuthor.payloadType s uri data coredata identifier →
  getitem data (Key "author-profile") = Return profile →
  getitem profile (Key "preferred-name") = Return preferred →
  getitem preferred (Key "given-name") = Return given →
  getitem preferred (Key "surname") = Return surname →
  ¬ (∃ first last, given = JStr first ∧ surname = JStr last) →
  ∃ s', elsAuthor.read rt c s = (Raise TypeError, s')
        ∧ self s' !! "firstName" = Some given
        ∧ self s' !! "lastName" = Some surname
        ∧ self s' !! "fullName" = self s !! "fullName".
Proof.
  intros Huri Hd Hprofile Hpreferred Hgiven Hsurname Hnot.
  exists (assigned (assigned (populated c s uri data identifier)
                      "firstName" given) "lastName" surname).
  split; [| simpl; by simplify_map_eq].
  erewrite author_read_first_name by eassumption.
  do 2 step.
  erewrite bind_Return
    by (apply self_get_run; simpl;
        by rewrite lookup_insert_ne, lookup_insert_eq).
  destruct (str_add given (JStr " ")) as [spaced|e] eqn:E1.
  - do 2 step.
    destruct (str_add spaced surname) as [full|e] eqn:E2.
    + apply str_add_inv in E1 as (first & ? & -> & _ & ->).
      apply str_add_inv in E2 as (? & last & _ & -> & _).
      destruct Hnot. eauto.
    + step. by rewrite (str_add_raises _ _ _ E2).
  - step. by rewrite (str_add_raises _ _ _ E1).
Qed.

Lemma author_read_names_not_str_witness :
  ∃ s', elsAuthor.read
          (Cases.author_world [("given-name", JStr "Ada");
                               ("surname", JNull)])
          Scenario.client Scenario.populated_author
        = (Raise TypeError, s')
        ∧ self s' !! "firstName" = Some (JStr "Ada")
        ∧ self s' !! "lastName" = Some JNull
        ∧ self s' !! "fullName" = Some (JStr "Jane Doe").
Proof.
  destruct (author_read_names_not_str
              (Cases.author_world [("given-name", JStr "Ada");
                                   ("surname", JNull)])
              Scenario.client Scenario.populated_author
              (JStr Scenario.author_uri)
              (Cases.author_named [("given-name", JStr "Ada");
                                   ("surname", JNull)])
              (JDict [("dc:identifier", JStr "AUTHOR_ID:7")])
              (JStr "AUTHOR_ID:7")
              (JDict [("preferred-name",
                       JDict [("given-name", JStr "Ada");
                              ("surname", JNull)])])
              (JDict [("given-name", JStr "Ada"); ("surname", JNull)])
              (JStr "Ada") JNull)
    as (s' & Hrun & Hfirst & Hlast & Hfull);
    [reflexivity | eapply Delivers; reflexivity | reflexivity .. | |].
  - intros (first & last & _ & [=]).
  - exists s'. split; [exact Hrun |]. split; [exact Hfirst |].
    split; [exact Hlast |]. rewrite Hfull. reflexivity.
Defined.

(** ** [readDocs], case by case *)

(** A further page for which [requests.get] raises. *)
Lemma readDocs_page_unreachable rt c key s u i e :
  self s !! "uri" = Some (JStr u) →
  requests_get rt (wire s) (request_for c (page_url u (elsClient.numRes c) i))
  = Raise e →
  elsProfile.readDocs_page rt c key i s
  = (Raise e, sent s (request_for c (page_url u (elsClient.numRes c) i))).
Proof.
  intros Huri Hget. unfold elsProfile.readDocs_page.
  do 3 step.
  erewrite bind_Raise
    by (unfold page_url in Hget; eapply execRequest_unreachable; eauto).
  reflexivity.
Qed.

(** The loop, when the pages of [idxs] arrive and the next one raises. *)
Lemma readDocs_loop_stops rt c key u idxs j rest pages s acc e s' :
  self s !! "uri" = Some (JStr u) →
  self s !! "docList" = Some (JList acc) →
  pages_served rt key c (wire s)
    (map (page_url u (elsClient.numRes c)) idxs) pages →
  elsProfile.readDocs_page rt c key j
    (fetched c u s idxs (acc ++ concat pages)) = (Raise e, s') →
  for_each (idxs ++ j :: rest) (elsProfile.readDocs_page rt c key) s
  = (Raise e, s').
Proof.
  intros Huri Hacc Hserved Hpage.
  rewrite for_each_app.
  erewrite bind_Return by (eapply readDocs_loop_ok; eauto).
  simpl. by erewrite bind_Raise.
Qed.

(** A run of [readDocs] in which every page arrives. *)
Lemma readDocs_run rt c key s u documents docs0 total T pages :
  elsClient.numRes c ≠ 0%Z →
  self s !! "uri" = Some (JStr u) →
  serves rt key (wire s) (request_for c (first_url u)) documents docs0 →
  getitem documents (Key "@total") = Return total →
  builtin_int rt total = Return T →
  pages_served rt key c (wire s ++ [request_for c (first_url u)])
    (map (page_url u (elsClient.numRes c))
       (range0 (T `div` elsClient.numRes c))) pages →
  elsProfile.readDocs rt c key s
  = (Return true,
     fetched c u
       (assigned (sent s (request_for c (first_url u))) "docList" (JList docs0))
       (range0 (T `div` elsClient.numRes c)) (docs0 ++ concat pages)).
Proof.
  intros HP Huri Hfirst Htotal Hint Hserved.
  erewrite readDocs_first_page by eassumption. unfold try_except.
  erewrite bind_Return by (rewrite eval_run, floordiv_run; done).
  erewrite bind_Return
    by (eapply readDocs_loop_ok; simpl; eauto; by simplify_map_eq).
  reflexivity.
Qed.

(** X15.  When [requests.get] raises during [readDocs], [readDocs] returns
    [False] for an exception of the [RequestException] hierarchy and lets
    any other through.  If it was the first request, no attribute has
    changed; if it was the request for the page of index [j], [docList]
    holds the documents of the pages that arrived before. *)
Theorem readDocs_when_get_raises rt c key s u :
  self s !! "uri" = Some (JStr u) →
  (∀ e,
     requests_get rt (wire s) (request_for c (first_url u)) = Raise e →
     elsProfile.readDocs rt c key s
     = (handled e, sent s (request_for c (first_url u))))
  ∧ (∀ documents docs0 total T j pages e,
       serves rt key (wire s) (request_for c (first_url u)) documents docs0 →
       getitem documents (Key "@total") = Return total →
       builtin_int rt total = Return T →
       (0 ≤ j < T `div` elsClient.numRes c)%Z →
       pages_served rt key c (wire s ++ [request_for c (first_url u)])
         (map (page_url u (elsClient.numRes c)) (range0 j)) pages →
       requests_get rt
         (wire s ++ map (request_for c)
                      (first_url u
                       :: map (page_url u (elsClient.numRes c)) (range0 j)))
         (request_for c (page_url u (elsClient.numRes c) j)) = Raise e →
       ∃ s', elsProfile.readDocs rt c key s = (handled e, s')
             ∧ self s'
               = <["docList" := JList (docs0 ++ concat pages)]> (self s)).
Proof.
  intros Huri. split.
  - intros e Hget. unfold elsProfile.readDocs, try_except, handled.
    do 2 step.
    erewrite bind_Raise
      by (unfold first_url in Hget; eapply execRequest_unreachable; eauto).
    by destruct (is_RequestException e).
  - intros documents docs0 total T j pages e Hfirst Htotal Hint Hj Hserved
      Hget.
    assert (elsClient.numRes c ≠ 0%Z) as HP.
    { intros E. rewrite E, Z.div_0_r in Hj. lia. }
    eexists. split.
    + erewrite readDocs_first_page by eassumption.
      unfold try_except, handled.
      erewrite bind_Return by (rewrite eval_run, floordiv_run; done).
      rewrite (range0_split _ j) by lia.
      erewrite bind_Raise; cycle 1.
      { eapply readDocs_loop_stops; simpl; eauto; try by simplify_map_eq.
        eapply readDocs_page_unreachable; simpl; [by simplify_map_eq |].
        simpl in *. rewrite <- app_assoc. simpl.
        rewrite map_map in Hget. exact Hget. }
      destruct (is_RequestException e); reflexivity.
    + simpl. by rewrite insert_insert_eq.
Qed.

Lemma readDocs_when_get_raises_witness :
  ∃ s', elsAuthor.readDocs (Cases.connection_lost "30") Scenario.client
          Scenario.fresh_author = (Return false, s')
        ∧ self s'
          = <["docList" := JList (map Scenario.doc ["a"; "b"])]>
              (self Scenario.fresh_author).
Proof.
  destruct (readDocs_when_get_raises (Cases.connection_lost "30")
              Scenario.client elsAuthor.payloadType Scenario.fresh_author
              Scenario.author_uri) as [_ H]; [reflexivity |].
  apply (H (JDict [("@total", JStr "30");
                   ("abstract-document",
                    JList [Scenario.doc "a"; Scenario.doc "b"])])
           [Scenario.doc "a"; Scenario.doc "b"] (JStr "30") 30%Z 0%Z []
           (RequestException "ConnectionError")).
  - eapply Serves; reflexivity.
  - reflexivity.
  - reflexivity.
  - vm_compute. split; discriminate || reflexivity.
  - exact I.
  - reflexivity.
Defined.

(** X16.  With a page size of 0, [readDocs] stores the first page in
    [docList] and then raises [ZeroDivisionError], after one request. *)
Theorem readDocs_page_size_zero rt c key s u documents docs0 total T :
  elsClient.numRes c = 0%Z →
  self s !! "uri" = Some (JStr u) →
  serves rt key (wire s) (request_for c (first_url u)) documents docs0 →
  getitem documents (Key "@total") = Return total →
  builtin_int rt total = Return T →
  elsProfile.readDocs rt c key s
  = (Raise ZeroDivisionError,
     {| self := <["docList" := JList docs0]> (self s);
        wire := wire s ++ [request_for c (first_url u)] |}).
Proof.
  intros HP Huri Hfirst Htotal Hint.
  erewrite readDocs_first_page by eassumption. unfold try_except.
  rewrite HP. by erewrite bind_Raise by apply eval_run.
Qed.

Lemma readDocs_page_size_zero_witness :
  (elsAuthor.readDocs Scenario.thirty_docs (Cases.client_with_pages 0)
     Scenario.fresh_author).1
  = Raise ZeroDivisionError.
Proof.
  unfold elsAuthor.readDocs.
  rewrite (readDocs_page_size_zero Scenario.thirty_docs
             (Cases.client_with_pages 0) elsAuthor.payloadType
             Scenario.fresh_author Scenario.author_uri
             (JDict [("@total", JStr "30");
                     ("abstract-document",
                      JList [Scenario.doc "a"; Scenario.doc "b"])])
             [Scenario.doc "a"; Scenario.doc "b"] (JStr "30") 30%Z);
    [reflexivity .. | eapply Serves; reflexivity | reflexivity | reflexivity].
Defined.

(** X17.  When the total divided by the page size is not positive (fewer
    documents than a page holds, or a total that is not positive),
    [readDocs] makes the first request only, stores its documents in
    [docList] and returns [True]. *)
Theorem readDocs_single_page rt c key s u documents docs0 total T :
  elsClient.numRes c ≠ 0%Z →
  (T `div` elsClient.numRes c ≤ 0)%Z →
  self s !! "uri" = Some (JStr u) →
  serves rt key (wire s) (request_for c (first_url u)) documents docs0 →
  getitem documents (Key "@total") = Return total →
  builtin_int rt total = Return T →
  elsProfile.readDocs rt c key s
  = (Return true,
     {| self := <["docList" := JList docs0]> (self s);
        wire := wire s ++ [request_for c (first_url u)] |}).
Proof.
  intros HP Hn Huri Hfirst Htotal Hint.
  assert (range0 (T `div` elsClient.numRes c) = []) as Hnil.
  { unfold range0, seqZ. by replace (Z.to_nat _) with 0%nat by lia. }
  rewrite (readDocs_run rt c key s u documents docs0 total T []);
    try done; [| by rewrite Hnil].
  rewrite Hnil, app_nil_r, fetched_nil; [done |].
  simpl. apply lookup_insert_eq.
Qed.

Lemma readDocs_single_page_witness :
  elsAuthor.readDocs (Cases.connection_lost "2") Scenario.client
    Scenario.fresh_author
  = (Return true,
     {| self := <["docList" := JList (map Scenario.doc ["a"; "b"])]>
                  (self Scenario.fresh_author);
        wire := [request_for Scenario.client
                   (first_url Scenario.author_uri)] |}).
Proof.
  apply (readDocs_single_page (Cases.connection_lost "2") Scenario.client
           elsAuthor.payloadType Scenario.fresh_author Scenario.author_uri
           (JDict [("@total", JStr "2");
                   ("abstract-document",
                    JList [Scenario.doc "a"; Scenario.doc "b"])])
           [Scenario.doc "a"; Scenario.doc "b"] (JStr "2") 2%Z);
    [discriminate | vm_compute; discriminate | reflexivity
    | eapply Serves; reflexivity | reflexivity | reflexivity].
Defined.

(** X18.  [readDocs] assigns [docList] only once the whole first page has
    been taken apart: when the documents section, the total, its value as
    an [int], the document list or its items cannot be had, [readDocs] ends
    with the exception of that step ([False] if it were of the
    [RequestException] hierarchy), after one request and with no attribute
    changed. *)
Theorem readDocs_unusable_first_page
    rt c key s u body decoded payload data e :
  self s !! "uri" = Some (JStr u) →
  requests_get rt (wire s) (request_for c (first_url u))
  = Return (Response 200 body) →
  json_loads rt body = Return decoded →
  getitem decoded (Key key) = Return payload →
  normalized payload = Return data →
  unusable rt data e →
  elsProfile.readDocs rt c key s
  = (handled e, sent s (request_for c (first_url u)))
  ∧ self (sent s (request_for c (first_url u))) = self s.
Proof.
  intros Huri Hget Hloads Hpayload Hdata Hbad.
  split; [| reflexivity].
  unfold elsProfile.readDocs, try_except, handled.
  do 2 step.
  erewrite bind_Return
    by (unfold first_url in Hget; erewrite execRequest_ok, Hloads; eauto).
  step.
  erewrite bind_Return
    by (rewrite normalize_run; [f_equal; eassumption | eassumption]).
  destruct Hbad; repeat step; by destruct (is_RequestException e).
Qed.

Lemma readDocs_unusable_first_page_witness :
  elsAuthor.readDocs Cases.total_unknown Scenario.client
    Scenario.fresh_author
  = (Raise ValueError,
     sent Scenario.fresh_author
       (request_for Scenario.client (first_url Scenario.author_uri))).
Proof.
  destruct (readDocs_unusable_first_page Cases.total_unknown Scenario.client
              elsAuthor.payloadType Scenario.fresh_author Scenario.author_uri
              "page 1" (Scenario.page "many" [Scenario.doc "a"])
              (JList [JDict [("documents",
                              JDict [("@total", JStr "many");
                                     ("abstract-document",
                                      JList [Scenario.doc "a"])])]])
              (JDict [("documents",
                       JDict [("@total", JStr "many");
                              ("abstract-document",
                               JList [Scenario.doc "a"])])])
              ValueError) as [H _]; [reflexivity .. | | exact H].
  eapply no_count; reflexivity.
Defined.

(** ** The requests of [readDocs] *)

Lemma readDocs_page_wire rt c key s u i :
  self s !! "uri" = Some (JStr u) →
  wire (elsProfile.readDocs_page rt c key i s).2
  = wire s ++ [request_for c (page_url u (elsClient.numRes c) i)].
Proof.
  intros Huri. unfold elsProfile.readDocs_page.
  do 3 step. rewrite wire_bind by (intros ?; quiet).
  by rewrite execRequest_wire.
Qed.

(** X19.  The loop of [readDocs] runs [T // P] times, so when the total [T]
    is a positive multiple of the page size [P] its last request asks for
    [start = T + 1], one past the last document: once the first page and
    the pages before the last have arrived, that request is made, however
    it is answered. *)
Theorem readDocs_requests_past_exact_total
    rt c key s u P documents docs0 total T pages :
  elsClient.numRes c = P →
  (0 < P)%Z →
  (0 < T)%Z →
  (T `mod` P = 0)%Z →
  self s !! "uri" = Some (JStr u) →
  serves rt key (wire s) (request_for c (first_url u)) documents docs0 →
  getitem documents (Key "@total") = Return total →
  builtin_int rt total = Return T →
  pages_served rt key c (wire s ++ [request_for c (first_url u)])
    (map (page_url u P) (range0 (T `div` P - 1))) pages →
  wire (elsProfile.readDocs rt c key s).2
  = wire s
    ++ map (request_for c)
         (first_url u :: map (page_url u P) (range0 (T `div` P - 1)))
    ++ [request_for c
          (JStr ((u +:+ "?view=documents&start=") +:+ str_of_int (T + 1)))].
Proof.
  intros HP Hpos HT Hmod Huri Hfirst Htotal Hint Hserved. subst P.
  pose proof (Z_div_exact_full_2 T (elsClient.numRes c)
                ltac:(lia) Hmod) as Hexact.
  erewrite readDocs_first_page by eassumption.
  rewrite wire_try_except by apply sends_nothing_mret.
  erewrite bind_Return by (rewrite eval_run, floordiv_run; [done | lia]).
  rewrite wire_bind by (intros ?; quiet).
  set (n := (T `div` elsClient.numRes c)%Z) in *.
  assert (1 ≤ n)%Z as Hn by nia.
  rewrite (range0_split n (n - 1)) by lia.
  replace (Z.pred (n - (n - 1))) with 0%Z by lia.
  rewrite for_each_app.
  erewrite bind_Return
    by (eapply readDocs_loop_ok; simpl; eauto; by simplify_map_eq).
  simpl. rewrite wire_bind by (intros ?; quiet).
  erewrite readDocs_page_wire by (simpl; by simplify_map_eq).
  simpl. rewrite <- !app_assoc. simpl. rewrite map_map.
  do 4 f_equal. unfold page_url. do 3 f_equal.
  f_equal. clearbody n. lia.
Qed.

Lemma readDocs_requests_past_exact_total_witness :
  map url (wire (elsAuthor.readDocs Cases.fifty_docs Scenario.client
                   Scenario.fresh_author).2)
  = [JStr (Scenario.author_uri +:+ "?view=documents");
     JStr (Scenario.author_uri +:+ "?view=documents&start=26");
     JStr (Scenario.author_uri +:+ "?view=documents&start=51")].
Proof.
  unfold elsAuthor.readDocs.
  rewrite (readDocs_requests_past_exact_total Cases.fifty_docs Scenario.client
             elsAuthor.payloadType Scenario.fresh_author Scenario.author_uri
             25
             (JDict [("@total", JStr "50");
                     ("abstract-document", JList [Scenario.doc "a"])])
             [Scenario.doc "a"] (JStr "50") 50%Z [[Scenario.doc "b"]]).
  - reflexivity.
  - reflexivity.
  - lia.
  - lia.
  - reflexivity.
  - reflexivity.
  - eapply Serves; reflexivity.
  - reflexivity.
  - reflexivity.
  - split; [| exact I]. eexists. eapply Serves; reflexivity.
Defined.

Lemma append_assoc (a b d : string) : (a +:+ b) +:+ d = a +:+ (b +:+ d).
Proof.
  induction a as [|x a IH]; [reflexivity |].
  change (String x ((a +:+ b) +:+ d) = String x (a +:+ (b +:+ d))).
  by rewrite IH.
Qed.

Lemma page_url_inj u P : P ≠ 0%Z → Inj eq eq (page_url u P).
Proof.
  intros HP i j [= H]. apply String.app_inj in H.
  apply pretty_Z_inj in H. nia.
Qed.

Lemma first_url_not_page_url u P i : first_url u ≠ page_url u P i.
Proof.
  unfold first_url, page_url. intros [= H].
  rewrite append_assoc in H. apply String.app_inj in H. discriminate.
Qed.

(** X20.  In a run of [readDocs] in which every page arrives, no URL is
    requested twice (the page size not being 0). *)
Theorem readDocs_requests_distinct
    rt c key s u documents docs0 total T pages :
  elsClient.numRes c ≠ 0%Z →
  self s !! "uri" = Some (JStr u) →
  serves rt key (wire s) (request_for c (first_url u)) documents docs0 →
  getitem documents (Key "@total") = Return total →
  builtin_int rt total = Return T →
  pages_served rt key c (wire s ++ [request_for c (first_url u)])
    (map (page_url u (elsClient.numRes c))
       (range0 (T `div` elsClient.numRes c))) pages →
  ∃ urls,
    wire (elsProfile.readDocs rt c key s).2
    = wire s ++ map (request_for c) urls
    ∧ NoDup urls.
Proof.
  intros HP Huri Hfirst Htotal Hint Hserved.
  exists (first_url u
          :: map (page_url u (elsClient.numRes c))
               (range0 (T `div` elsClient.numRes c))).
  split.
  - erewrite readDocs_run by eassumption.
    simpl. rewrite <- app_assoc. simpl. by rewrite map_map.
  - apply NoDup_cons. split.
    + intros Hin. apply list_elem_of_fmap in Hin as (i & Hi & _).
      by apply first_url_not_page_url in Hi.
    + apply NoDup_fmap_2; [by apply page_url_inj | apply NoDup_seqZ].
Qed.

Lemma readDocs_requests_distinct_witness :
  ∃ urls,
    wire (elsAuthor.readDocs Cases.fifty_docs Scenario.client
            Scenario.fresh_author).2
    = map (request_for Scenario.client) urls
    ∧ NoDup urls.
Proof.
  apply (readDocs_requests_distinct Cases.fifty_docs Scenario.client
           elsAuthor.payloadType Scenario.fresh_author Scenario.author_uri
           (JDict [("@total", JStr "50");
                   ("abstract-document", JList [Scenario.doc "a"])])
           [Scenario.doc "a"] (JStr "50") 50%Z
           [[Scenario.doc "b"]; []]).
  - discriminate.
  - reflexivity.
  - eapply Serves; reflexivity.
  - reflexivity.
  - reflexivity.
  - split; [eexists; eapply Serves; reflexivity |].
    split; [eexists; eapply Serves; reflexivity | exact I].
Defined.

(** ** Construction and configuration *)

(** X21.  [getURI] answers the URI the entity was constructed with, for an
    author, an affiliation and a document, and still does so after a [read]
    or a [readDocs], however that ended. *)
Theorem getURI_is_constructor_argument rt c URI (w : list request) :
  (elsAuthor.getURI {| self := elsAuthor.new URI; wire := w |}).1 = Return URI
  ∧ (elsAffil.getURI {| self := elsAffil.new URI; wire := w |}).1 = Return URI
  ∧ (elsDoc.getURI {| self := elsDoc.new URI; wire := w |}).1 = Return URI
  ∧ (elsAuthor.getURI
       (elsAuthor.read rt c {| self := elsAuthor.new URI; wire := w |}).2).1
    = Return URI
  ∧ (elsAuthor.getURI
       (elsAuthor.readDocs rt c {| self := elsAuthor.new URI; wire := w |}).2).1
    = Return URI
  ∧ (elsAffil.getURI
       (elsAffil.read rt c {| self := elsAffil.new URI; wire := w |}).2).1
    = Return URI
  ∧ (elsAffil.getURI
       (elsAffil.readDocs rt c {| self := elsAffil.new URI; wire := w |}).2).1
    = Return URI
  ∧ (elsDoc.getURI
       (elsDoc.read rt c {| self := elsDoc.new URI; wire := w |}).2).1
    = Return URI.
Proof.
  destruct (subclass_read_preserves rt c) as (HA & HF & HD).
  pose proof (readDocs_preserves rt c elsAuthor.payloadType) as HAD.
  pose proof (readDocs_preserves rt c elsAffil.payloadType) as HFD.
  destruct uri_not_assigned as (_ & UA & UF & UD & UL).
  unfold elsAuthor.getURI, elsAffil.getURI, elsDoc.getURI,
    elsAuthor.readDocs, elsAffil.readDocs.
  rewrite !getURI_lookup. unfold getattr.
  rewrite (HA _ "uri" UA), (HF _ "uri" UF), (HD _ "uri" UD),
    (HAD _ "uri" UL), (HFD _ "uri" UL).
  unfold elsAuthor.new, elsAffil.new, elsDoc.new,
    elsAuthor.init, elsAffil.init, elsDoc.init, elsEntity.init. simpl.
  repeat split; by simplify_map_eq.
Qed.

Lemma setInstToken_keeps toks : ∀ c,
  elsClient.apiKey (foldl elsClient.setInstToken c toks) = elsClient.apiKey c
  ∧ elsClient.numRes (foldl elsClient.setInstToken c toks) = elsClient.numRes c
  ∧ elsClient.instToken (foldl elsClient.setInstToken c toks)
    = default (elsClient.instToken c) (last toks).
Proof.
  induction toks as [|tok toks IH]; intros c; [done |].
  simpl. destruct (IH (elsClient.setInstToken c tok)) as (-> & -> & ->).
  repeat split. rewrite last_cons. by destruct (last toks).
Qed.

(** X22.  Whatever tokens are set on a client after its construction, the
    API key it shows and sends is the one it was constructed with, its page
    size is 25, and the token in force is the last one set (the one of the
    constructor if none was). *)
Theorem client_configuration key token toks key0 :
  let c := foldl elsClient.setInstToken (elsClient.init key token) toks in
  elsClient.showApiKey c = key
  ∧ elsClient.request_headers c !! "X-ELS-APIKey" = Some key
  ∧ elsClient.numRes c = 25%Z
  ∧ elsClient.instToken c = default token (last toks)
  ∧ elsClient.getBaseURL c = "https://api.elsevier.com/"
  ∧ elsClient.instToken (elsClient.init_default key0) = "".
Proof.
  intros c.
  destruct (setInstToken_keeps toks (elsClient.init key token))
    as (Hkey & Hres & Htok).
  fold c in Hkey, Hres, Htok. simpl in *.
  repeat split; try done.
  unfold elsClient.request_headers. rewrite Hkey.
  destruct (truthy _); by simplify_map_eq.
Qed.

(** * The throttle *)

Module ThrottleFacts.
Import Throttle.

Section AnyClock.
Context {T : Type} `{Seconds T} (clock : list (event T) → T).


End AnyClock.


Section TwoCalls.
Context {T : Type} `{Seconds T} (clock : list (event T) → T).


Lemma execRequest_untimed rt c URL tm s :
  (execRequest clock rt c URL (tm, s)).1 = (elsClient.execRequest rt c URL s).1
  ∧ (execRequest clock rt c URL (tm, s)).2.2
    = (elsClient.execRequest rt c URL s).2.
Proof.
  unfold execRequest. simpl.
  by destruct (elsClient.execRequest rt c URL s).
Qed.

Context (value : T → Q).
Hypothesis exact_minus : ∀ a b, (value (minus a b) == value a - value b)%Q.
Hypothesis exact_less : ∀ a b, less a b = true ↔ (value a < value b)%Q.
Hypothesis exact_min : (value (of_int elsClient.minReqInterval) == 1)%Q.
Hypothesis forward : ∀ tr tr', (value (clock tr) <= value (clock (tr ++ tr')))%Q.
Hypothesis asleep : ∀ tr d,
  (value (clock tr) + value d <= value (clock (tr ++ [Sleep d])))%Q.




End TwoCalls.











(** The throttle on [float]s: a quarter of a second after the last request
    it sleeps three quarters. *)
Lemma throttle_on_floats :
  throttle (scripted [10.25; 0; 11]%float)
    {| tsLastReq := 10%float; trace := [] |}
  = {| tsLastReq := 11%float;
       trace := [Now 10.25%float; Sleep 0.75%float; Now 11%float] |}.
Proof. vm_compute. reflexivity. Qed.

End ThrottleFacts.
